(** * inhouse_bot: the bot class [InhouseBot] of [inhouse_bot/inhouse_bot.py]

    A shallow embedding of the three methods of [InhouseBot] that carry
    behaviour -- [background_jobs] (the scheduler tick), [on_ready] and
    [on_command_error] -- together with the parts of the queue engine they
    call into.  Python exceptions are values of one inductive type, effectful
    code lives in a state-and-exception monad over a [World] record, and
    everything observable a method does (log records, calls into
    collaborators, tasks handed to the event loop, timers, messages sent) is
    an event of a trace. *)

From Stdlib Require Import ZArith String Ascii List Bool Lia.
From stdpp Require Import gmap strings list.

Local Open Scope string_scope.
Local Open Scope list_scope.
Local Open Scope Z_scope.

(** ** Constants of [inhouse_bot.common_utils.constants]

    The module is imported by the source but is not part of it: its values
    are taken as a parameter of every definition that reads one. *)

Record Constants := {
  PREFIX : string;
  INHOUSE_BOT_TOURNAMENTS : bool;
  BACKGROUND_JOBS_INTERVAL : Z;
  QUEUE_RESET_TIME : string
}.

(** ** Python values and exceptions *)

(** What [get_server_config_by_key] may hand back; only truthiness is used. *)
Inductive pyvalue :=
| PyNone
| PyBool (b : bool)
| PyInt (z : Z)
| PyStr (s : string).

Definition truthy (v : pyvalue) : bool :=
  match v with
  | PyNone => false
  | PyBool b => b
  | PyInt z => negb (z =? 0)
  | PyStr s => negb (String.eqb s "")
  end.

(** The exception classes the source tests with [isinstance], the one it can
    raise itself ([IndexError], from [self.guilds[0]]), and two catch-alls:
    [OtherException] for any further subclass of [Exception] and
    [BaseExceptionOnly] for a [BaseException] outside [Exception]
    ([KeyboardInterrupt], [SystemExit]), which [except Exception] lets
    through.  [AlreadyQueued] is named by the specification only. *)
Inductive exception :=
| CommandNotFound
| MissingRequiredArgument
| ConversionError
| NoPrivateMessage
| QueueChannelsOnly
| SameRolesForDuo
| AdminGroupOnly
| CommandInvokeError (original : exception)
| PlayerInGame
| PlayerInReadyCheck
| AlreadyQueued
| IndexError
| OtherException (descr : string)
| BaseExceptionOnly (descr : string).

Definition is_Exception (e : exception) : bool :=
  match e with
  | BaseExceptionOnly _ => false
  | _ => true
  end.

(** [str(e)], as interpolated by [f"error {e}"] and as logged by
    [logging.error(e)].  The named classes carry no text in this model, so
    theirs is left empty; for [CommandInvokeError] discord.py also puts the
    class name of the original in front of its text, and class names are not
    modelled: the fixed prefix and the text of the original are kept. *)
Fixpoint exception_str (e : exception) : string :=
  match e with
  | CommandInvokeError o => "Command raised an exception: " +:+ exception_str o
  | IndexError => "list index out of range"
  | OtherException d => d
  | BaseExceptionOnly d => d
  | _ => ""
  end.

(** ** Wall-clock time *)

Record datetime := {
  year : nat; month : nat; day : nat;
  hour : nat; minute : nat; second : nat
}.

Definition digit (n : nat) : ascii := ascii_of_nat (48 + n mod 10).

Definition two_digits (n : nat) : string :=
  String (digit (n / 10)) (String (digit n) EmptyString).

(** [now.strftime("%H:%M")] *)
Definition strftime_HM (d : datetime) : string :=
  two_digits (hour d) +:+ ":" +:+ two_digits (minute d).

(** Two readings of the clock fall in the same wall-clock minute. *)
Definition same_minute (a b : datetime) : bool :=
  Nat.eqb (year a) (year b) && Nat.eqb (month a) (month b)
  && Nat.eqb (day a) (day b) && Nat.eqb (hour a) (hour b)
  && Nat.eqb (minute a) (minute b).

(** ** The queue engine's data (package [game_queue], specification 3) *)

Definition server_id := Z.
Definition player_id := Z.

Inductive role := TOP | JGL | MID | BOT | SUP.

Definition role_eqb (a b : role) : bool :=
  match a, b with
  | TOP, TOP | JGL, JGL | MID, MID | BOT, BOT | SUP, SUP => true
  | _, _ => false
  end.

Record QueueEntry := {
  entry_player : player_id;
  entry_role : role;
  entry_duo : option player_id
}.

Module PlayerStatus.
Inductive t := Pending | Accepted | Declined.
End PlayerStatus.

(** The engine of a server is Idle when the server has no ready-check on
    record; a recorded check is in one of the three remaining states. *)
Module ReadyCheck.
Inductive state := Pending | Confirmed | Cancelled.
Record t := {
  participants : list (player_id * PlayerStatus.t);
  status : state
}.
End ReadyCheck.

Module Game.
Inductive status := AwaitingResult | Scored | Cancelled.
Record t := {
  id : Z;
  server : server_id;
  participants : list (player_id * role);
  state : status
}.
End Game.

(** ** Traces *)

(** Where a piece of code runs: on the bot's event loop, or on a thread
    created by [threading.Timer]. *)
Inductive thread := EventLoop | TimerThread.

(** Synchronous calls into the engine and its collaborators. *)
Inductive call :=
| reset_queue_call (server : option server_id)
| cancel_all_ready_checks_call
| update_queue_channels_call (server : option server_id)
| update_ranking_channels_call (server : option server_id).

(** Coroutines handed to [self.loop.create_task]. *)
Inductive task :=
| update_queue_channels (server : option server_id)
| tournament_check (server : server_id).

Inductive event :=
| LogInfo (msg : string)
| LogError (msg : string)
| Called (th : thread) (c : call)
| CreateTask (th : thread) (t : task)
| TimerStart (interval : Z)
| Matchmaking (server : server_id)
| Sent (content : string) (delete_after : option Z).

(** ** The world the bot runs in *)

Record World := {
  guilds : list server_id;                       (* self.guilds *)
  job_counter : Z;                               (* self.job_counter *)
  queue : gmap server_id (list QueueEntry);      (* QueueStore, all servers *)
  ready_checks : gmap server_id ReadyCheck.t;    (* ReadyCheckEngine *)
  games : list Game.t;                           (* GameLifecycle *)
  timers : list Z;                               (* started, not yet fired *)
  trace : list event
}.

Definition set_job_counter (n : Z) (w : World) : World :=
  {| guilds := guilds w; job_counter := n; queue := queue w;
     ready_checks := ready_checks w; games := games w;
     timers := timers w; trace := trace w |}.

Definition set_queue (q : gmap server_id (list QueueEntry)) (w : World) : World :=
  {| guilds := guilds w; job_counter := job_counter w; queue := q;
     ready_checks := ready_checks w; games := games w;
     timers := timers w; trace := trace w |}.

Definition set_ready_checks (r : gmap server_id ReadyCheck.t) (w : World) : World :=
  {| guilds := guilds w; job_counter := job_counter w; queue := queue w;
     ready_checks := r; games := games w;
     timers := timers w; trace := trace w |}.

Definition set_timers (t : list Z) (w : World) : World :=
  {| guilds := guilds w; job_counter := job_counter w; queue := queue w;
     ready_checks := ready_checks w; games := games w;
     timers := t; trace := trace w |}.

Definition set_trace (t : list event) (w : World) : World :=
  {| guilds := guilds w; job_counter := job_counter w; queue := queue w;
     ready_checks := ready_checks w; games := games w;
     timers := timers w; trace := t |}.

(** ** A state-and-exception monad *)

Inductive result (A : Type) :=
| Ok (a : A)
| Raise (e : exception).
Arguments Ok {A} a.
Arguments Raise {A} e.

Definition M (A : Type) : Type := World -> result A * World.

Definition ret {A} (a : A) : M A := fun w => (Ok a, w).

Definition bind {A B} (m : M A) (k : A -> M B) : M B :=
  fun w =>
    match m w with
    | (Ok a, w1) => k a w1
    | (Raise e, w1) => (Raise e, w1)
    end.

#[global] Instance M_ret : MRet M := @ret.
#[global] Instance M_bind : MBind M := fun A B k m => bind m k.

Definition raise {A} (e : exception) : M A := fun w => (Raise e, w).

Definition gets {A} (f : World -> A) : M A := fun w => (Ok (f w), w).

Definition modify (f : World -> World) : M unit := fun w => (Ok tt, f w).

Definition emit (ev : event) : M unit :=
  modify (fun w => set_trace (trace w ++ [ev]) w).

Definition lift {A} (r : result A) : M A := fun w => (r, w).

(** [try: body / except Exception as e: handler(e) / finally: final].
    The handler sees subclasses of [Exception] only; [final] runs on every
    path, and an exception still pending after it is raised again. *)
Definition try_except_finally
    (body : M unit) (handler : exception -> M unit) (final : M unit) : M unit :=
  fun w =>
    let '(r, w1) := body w in
    let '(r', w2) :=
      match r with
      | Ok _ => (Ok tt, w1)
      | Raise e => if is_Exception e then handler e w1 else (Raise e, w1)
      end in
    match final w2 with
    | (Ok _, w3) => (r', w3)
    | (Raise ef, w3) => (Raise ef, w3)
    end.

(** ** Collaborators outside the source

    [get_server_config_by_key] reads the persisted per-server settings
    (specification 6, ConfigStore); the rendering helpers rewrite the queue
    and ranking channels.  Neither is part of the source: each is a
    parameter, free to return or to raise. *)

Record Collaborators := {
  get_server_config_by_key : server_id -> string -> result pyvalue;
  render_queue_channels : option server_id -> World -> result unit;
  render_ranking_channels : option server_id -> World -> result unit
}.

(** Modelled from the spec: [game_queue.reset_queue], which the source calls
    and does not contain.  Specification 4.1: clears all entries for a
    server, and does not affect ready-checks or games.  Without a server id
    (the source's call passes none, next to [server_id=None] for the
    channel update) every server's entries are cleared. *)
Definition reset_queue (th : thread) (server : option server_id) : M unit :=
  emit (Called th (reset_queue_call server));;
  modify (fun w =>
    set_queue (match server with
               | Some s => delete s (queue w)
               | None => ∅
               end) w).

(** [self.guilds[0].id] *)
Definition guilds_0_id : M server_id :=
  fun w =>
    match guilds w with
    | g :: _ => (Ok g, w)
    | [] => (Raise IndexError, w)
    end.

(** ** The event loop

    [self.loop] belongs to asyncio, not to the source: what it does with a
    coroutine handed to [create_task] is a parameter.  [None] stands for a
    task that was scheduled, [Some e] for a call that raises [e]: a loop
    that was closed raises [RuntimeError], and so does a loop in debug mode
    when it is called from a thread that is not its own. *)
Definition Loop : Type := thread -> task -> option exception.

(** A loop that takes every task. *)
Definition running : Loop := fun _ _ => None.

(** A loop after [close()]. *)
Definition closed : Loop :=
  fun _ _ => Some (OtherException "Event loop is closed").

(** [self.loop.create_task(coro)] *)
Definition create_task (L : Loop) (th : thread) (t : task) : M unit :=
  match L th t with
  | None => emit (CreateTask th t)
  | Some e => raise e
  end.

(** [logging.error(msg)] and [logging.info(msg)] *)
Definition logging_error (msg : string) : M unit := emit (LogError msg).
Definition logging_info (msg : string) : M unit := emit (LogInfo msg).

(** [threading.Timer(interval, self.background_jobs).start()] *)
Definition Timer_start (interval : Z) : M unit :=
  emit (TimerStart interval);;
  modify (fun w => set_timers (timers w ++ [interval]) w).

(** ** [InhouseBot.background_jobs]

    Docstring of the method: "Triggers background jobs and sets a timer to
    execute them again on a timeout.  No work should be done in this thread
    -- jobs should only get added to the event loop".

    [th] is the thread the method runs on and [now] the value of
    [datetime.now()] read on entry.  The source marks its tournament check
    with "TODO this is only checking the first server, but it should check
    all servers". *)

Definition background_jobs_body
    (L : Loop) (K : Constants) (C : Collaborators) (th : thread) (now : datetime)
    : M unit :=
  server ← guilds_0_id;
  queue_reset ← lift (get_server_config_by_key C server "queue_reset");
  (if String.eqb (strftime_HM now) (QUEUE_RESET_TIME K) then
     if truthy queue_reset then
       reset_queue th None;;
       create_task L th (update_queue_channels None)
     else ret tt
   else ret tt);;
  counter ← gets job_counter;
  if INHOUSE_BOT_TOURNAMENTS K && Z.eqb (counter mod 5) 0 then
    server' ← guilds_0_id;
    create_task L th (tournament_check server')
  else ret tt.

(** The method, with [L] for what [self.loop] does with a task. *)
Definition background_jobs_on
    (L : Loop) (K : Constants) (C : Collaborators) (th : thread) (now : datetime)
    : M unit :=
  try_except_finally
    (background_jobs_body L K C th now)
    (fun e => logging_error ("error " +:+ exception_str e))
    (modify (fun w => set_job_counter (job_counter w + 1) w);;
     Timer_start (BACKGROUND_JOBS_INTERVAL K)).

(** The method while the event loop is running and takes every task. *)
Definition background_jobs
    (K : Constants) (C : Collaborators) (th : thread) (now : datetime) : M unit :=
  background_jobs_on running K C th now.

(** ** The timer chain

    A started timer fires once: [background_jobs] then runs on the timer's
    thread.  With no timer pending there is nothing to fire.  This chain is
    the one of a bot whose loop is running; [timer_fires_on] and [run_on]
    below let the settings and the loop differ from one firing to the
    next. *)

Definition timer_fires
    (K : Constants) (C : Collaborators) (now : datetime) (w : World)
    : option (result unit * World) :=
  match timers w with
  | [] => None
  | _ :: pending => Some (background_jobs K C TimerThread now (set_timers pending w))
  end.

Fixpoint run_ticks
    (K : Constants) (C : Collaborators) (ticks : list datetime) (w : World)
    : option World :=
  match ticks with
  | [] => Some w
  | now :: later =>
      match timer_fires K C now w with
      | Some (_, w') => run_ticks K C later w'
      | None => None
      end
  end.

(** ** Reading a trace *)

Definition is_reset (ev : event) : bool :=
  match ev with
  | Called _ (reset_queue_call _) => true
  | _ => false
  end.

Definition is_poll (ev : event) : bool :=
  match ev with
  | CreateTask _ (tournament_check _) => true
  | _ => false
  end.

Definition is_sent (ev : event) : bool :=
  match ev with
  | Sent _ _ => true
  | _ => false
  end.

(** Calls that change queue or ready-check state. *)
Definition is_mutation (c : call) : bool :=
  match c with
  | reset_queue_call _ | cancel_all_ready_checks_call => true
  | update_queue_channels_call _ | update_ranking_channels_call _ => false
  end.

(** A mutation carried out on a timer's own thread. *)
Definition mutates_on_timer_thread (ev : event) : bool :=
  match ev with
  | Called TimerThread c => is_mutation c
  | _ => false
  end.

Definition count (f : event -> bool) (tr : list event) : nat :=
  length (List.filter f tr).

(** The events a computation adds to the trace of [w]. *)
Definition emitted {A} (m : M A) (w : World) : list event :=
  drop (length (trace w)) (trace (snd (m w))).

(** In [tr], every occurrence of [b] comes after an occurrence of [a]. *)
Definition precedes (a b : event) (tr : list event) : Prop :=
  forall pre post, tr = pre ++ b :: post -> In a pre.

Definition reset_time (K : Constants) (now : datetime) : bool :=
  String.eqb (strftime_HM now) (QUEUE_RESET_TIME K).

(** How many of the given clock readings show the reset time. *)
Definition at_reset_time (K : Constants) (ticks : list datetime) : nat :=
  length (List.filter (reset_time K) ticks).

(** The [queue_reset] setting of the first guild, when there is a first
    guild and its setting can be read: what a tick's first two statements
    leave in the variable [queue_reset]. *)
Definition first_guild_setting (C : Collaborators) (w : World) : option pyvalue :=
  match guilds w with
  | g :: _ =>
      match get_server_config_by_key C g "queue_reset" with
      | Ok v => Some v
      | Raise _ => None
      end
  | [] => None
  end.

Definition reset_enabled (C : Collaborators) (w : World) : bool :=
  match first_guild_setting C w with
  | Some v => truthy v
  | None => false
  end.


(** ** Ready-checks (specification 4.3) *)

Definition cancel_check (rc : ReadyCheck.t) : ReadyCheck.t :=
  match ReadyCheck.status rc with
  | ReadyCheck.Pending =>
      {| ReadyCheck.participants := ReadyCheck.participants rc;
         ReadyCheck.status := ReadyCheck.Cancelled |}
  | _ => rc
  end.

(** Modelled from the spec: [game_queue.cancel_all_ready_checks], which the
    source calls and does not contain.  Specification 4.3, [cancelAll()]:
    force-transitions any active check to Cancelled. *)
Definition cancel_all_ready_checks (th : thread) : M unit :=
  emit (Called th cancel_all_ready_checks_call);;
  modify (fun w => set_ready_checks (cancel_check <$> ready_checks w) w).

(** ** [InhouseBot.on_ready] *)

Definition await_update_queue_channels
    (C : Collaborators) (th : thread) (server : option server_id) : M unit :=
  emit (Called th (update_queue_channels_call server));;
  w ← gets (fun w => w);
  lift (render_queue_channels C server w).

Definition await_update_ranking_channels
    (C : Collaborators) (th : thread) (server : option server_id) : M unit :=
  emit (Called th (update_ranking_channels_call server));;
  w ← gets (fun w => w);
  lift (render_ranking_channels C server w).

(** [user_name] is [self.user.name]; the handler is a coroutine of the event
    loop, so all it calls directly runs there, and the loop is running while
    it does. *)
Definition on_ready
    (K : Constants) (C : Collaborators) (user_name : string) (now : datetime)
    : M unit :=
  logging_info (user_name +:+ " has connected to Discord");;
  cancel_all_ready_checks EventLoop;;
  await_update_queue_channels C EventLoop None;;
  await_update_ranking_channels C EventLoop None;;
  background_jobs K C EventLoop now.

(** ** [InhouseBot.on_command_error] *)

Record Context := {
  invoked_with : string                          (* ctx.invoked_with *)
}.

Definition nl : string := String (ascii_of_nat 10) EmptyString.

(** [ctx.send(content)] and [ctx.send(content, delete_after=20)] *)
Definition ctx_send (content : string) : event := Sent content None.
Definition ctx_send_delete_after (content : string) (seconds : Z) : event :=
  Sent content (Some seconds).

Definition generic_error_message (K : Constants) : string :=
  "There was an error processing the command" +:+ nl
  +:+ "Use " +:+ PREFIX K +:+ "help for the commands list or post in #inhouse for bugs".

(** The events of one run of the handler, in order.  The [isinstance] chain
    of the source is the sequence of clauses below: the classes it tests are
    pairwise unrelated, so at most one clause applies to an error. *)
Definition on_command_error
    (K : Constants) (ctx : Context) (error : exception) : list event :=
  match error with
  | CommandNotFound =>
      [ctx_send ("Command `" +:+ invoked_with ctx +:+ "` not found, use "
                 +:+ PREFIX K +:+ "help to see the commands list")]
  | MissingRequiredArgument =>
      [ctx_send ("Arguments missing, use `" +:+ PREFIX K +:+ "help "
                 +:+ invoked_with ctx +:+ "` to see the arguments list")]
  | ConversionError =>
      (* Conversion errors feedback are handled in my converters *)
      []
  | NoPrivateMessage =>
      [ctx_send "This command can only be used inside a server"]
  | QueueChannelsOnly =>
      [ctx_send "This command can only be used in a channel marked as a queue by an admin"]
  | SameRolesForDuo =>
      [ctx_send "Duos must have different roles"]
  | AdminGroupOnly =>
      [ctx_send "Only admins can use this command"]
  | CommandInvokeError og_error =>
      match og_error with
      | PlayerInGame =>
          [ctx_send_delete_after
             ("Your last game was not scored and you are not allowed to queue at the moment."
              +:+ nl
              +:+ (if INHOUSE_BOT_TOURNAMENTS K
                   then "The game will automatically be scored shortly after it ends, "
                   else "One of the winners can score the game with `" +:+ PREFIX K
                        +:+ "won`, ")
              +:+ "or players can agree to cancel it with `" +:+ PREFIX K +:+ "cancel`")
             20]
      | PlayerInReadyCheck =>
          [ctx_send_delete_after
             ("A game has already been found for you and you cannot queue until it is accepted or cancelled"
              +:+ nl
              +:+ "If it is a bug, post in #inhouse and ask them to use `" +:+ PREFIX K
              +:+ "admin reset` with your name")
             20]
      | _ =>
          [ctx_send (generic_error_message K);
           LogError (exception_str og_error)]
      end
  | _ =>
      [ctx_send (generic_error_message K);
       LogError (exception_str error)]
  end.

(** ** QueueStore (specification 4.1) *)

Definition entries (w : World) (server : server_id) : list QueueEntry :=
  default [] (queue w !! server).

Definition has_entry (w : World) (server : server_id) (player : player_id) : bool :=
  existsb (fun e => Z.eqb (entry_player e) player) (entries w server).

Definition in_awaiting_game (w : World) (server : server_id) (player : player_id) : bool :=
  existsb
    (fun g =>
       Z.eqb (Game.server g) server
       && match Game.state g with Game.AwaitingResult => true | _ => false end
       && existsb (fun pr => Z.eqb (fst pr) player) (Game.participants g))
    (games w).

Definition in_pending_ready_check (w : World) (server : server_id) (player : player_id) : bool :=
  match ready_checks w !! server with
  | Some rc =>
      match ReadyCheck.status rc with
      | ReadyCheck.Pending =>
          existsb (fun ps => Z.eqb (fst ps) player) (ReadyCheck.participants rc)
      | _ => false
      end
  | None => false
  end.

(** The spec's [PlayerBarred]: the source has one exception class for each
    of its two causes. *)
Definition PlayerBarred (e : exception) : Prop :=
  e = PlayerInGame \/ e = PlayerInReadyCheck.

(** Modelled from the spec: the barring and duplicate checks of
    [game_queue]'s join operations, absent from the source.  Specification
    4.1 names the failures and gives them no priority; a participant of a
    Pending ready-check still holds a queue entry (entries leave the queue
    at game creation only), so barring is tested before the duplicate, in
    the order the source's handler distinguishes the two causes. *)
Definition check_may_queue (server : server_id) (player : player_id) : M unit :=
  w ← gets (fun w => w);
  if in_awaiting_game w server player then raise PlayerInGame
  else if in_pending_ready_check w server player then raise PlayerInReadyCheck
  else if has_entry w server player then raise AlreadyQueued
  else ret tt.

Definition insert_entry (server : server_id) (e : QueueEntry) : M unit :=
  modify (fun w => set_queue (<[server := entries w server ++ [e]]> (queue w)) w).

(** Modelled from the spec: [join(serverId, player, role)], absent from the
    source.  Specification 4.1: fails with AlreadyQueued or PlayerBarred,
    otherwise inserts the entry and triggers a matchmaking attempt. *)
Definition join (server : server_id) (player : player_id) (r : role) : M unit :=
  check_may_queue server player;;
  insert_entry server
    {| entry_player := player; entry_role := r; entry_duo := None |};;
  emit (Matchmaking server).

(** Modelled from the spec: [joinDuo(serverId, playerA, roleA, playerB,
    roleB)], absent from the source.  Specification 4.1: fails with
    SameRolesForDuo if the roles are equal; same checks as [join] for both
    players; both entries are inserted, or neither. *)
Definition joinDuo (server : server_id)
    (playerA : player_id) (roleA : role) (playerB : player_id) (roleB : role)
    : M unit :=
  if role_eqb roleA roleB then raise SameRolesForDuo
  else
    check_may_queue server playerA;;
    check_may_queue server playerB;;
    insert_entry server
      {| entry_player := playerA; entry_role := roleA; entry_duo := Some playerB |};;
    insert_entry server
      {| entry_player := playerB; entry_role := roleB; entry_duo := Some playerA |};;
    emit (Matchmaking server).

(** Modelled from the spec: the command layer, absent from the source
    (specification 1 and 9: domain errors are raised and caught by a generic
    handler).  An exception that leaves a command reaches
    [on_command_error]: as it is when the handler tests for its class at top
    level, wrapped in [CommandInvokeError] when the handler looks for it in
    [error.original]. *)
Definition as_command_error (e : exception) : exception :=
  match e with
  | CommandNotFound | MissingRequiredArgument | ConversionError
  | NoPrivateMessage | QueueChannelsOnly | SameRolesForDuo | AdminGroupOnly
  | CommandInvokeError _ => e
  | _ => CommandInvokeError e
  end.

Definition invoke (K : Constants) (ctx : Context) (command : M unit) : M unit :=
  fun w =>
    match command w with
    | (Ok _, w') => (Ok tt, w')
    | (Raise e, w') =>
        (Ok tt, set_trace (trace w' ++ on_command_error K ctx (as_command_error e)) w')
    end.

(** ** Concrete settings, clocks and worlds used in examples *)

Definition K_tournaments : Constants :=
  {| PREFIX := "!"; INHOUSE_BOT_TOURNAMENTS := true;
     BACKGROUND_JOBS_INTERVAL := 60; QUEUE_RESET_TIME := "12:00" |}.

Definition K_plain : Constants :=
  {| PREFIX := "!"; INHOUSE_BOT_TOURNAMENTS := false;
     BACKGROUND_JOBS_INTERVAL := 60; QUEUE_RESET_TIME := "12:00" |}.

(** A scheduler that ticks every 30 seconds. *)
Definition K_fast : Constants :=
  {| PREFIX := "!"; INHOUSE_BOT_TOURNAMENTS := false;
     BACKGROUND_JOBS_INTERVAL := 30; QUEUE_RESET_TIME := "12:00" |}.

Definition noon_05 : datetime :=
  {| year := 2024; month := 1; day := 15; hour := 12; minute := 0; second := 5 |}.

Definition noon_35 : datetime :=
  {| year := 2024; month := 1; day := 15; hour := 12; minute := 0; second := 35 |}.

Definition noon_01_05 : datetime :=
  {| year := 2024; month := 1; day := 15; hour := 12; minute := 1; second := 5 |}.

Definition nine_30 : datetime :=
  {| year := 2024; month := 1; day := 15; hour := 9; minute := 30; second := 0 |}.

Definition renders_fine : option server_id -> World -> result unit :=
  fun _ _ => Ok tt.

(** Every server has [queue_reset] switched on. *)
Definition C_all_on : Collaborators :=
  {| get_server_config_by_key := fun _ _ => Ok (PyBool true);
     render_queue_channels := renders_fine;
     render_ranking_channels := renders_fine |}.

(** Server 1 has [queue_reset] switched off, every other server on. *)
Definition C_first_off : Collaborators :=
  {| get_server_config_by_key := fun s _ => Ok (PyBool (negb (Z.eqb s 1)));
     render_queue_channels := renders_fine;
     render_ranking_channels := renders_fine |}.

(** Server 1 has [queue_reset] switched on, every other server off. *)
Definition C_first_on : Collaborators :=
  {| get_server_config_by_key := fun s _ => Ok (PyBool (Z.eqb s 1));
     render_queue_channels := renders_fine;
     render_ranking_channels := renders_fine |}.

(** The settings cannot be read. *)
Definition C_config_down : Collaborators :=
  {| get_server_config_by_key := fun _ _ => Raise (OtherException "database is locked");
     render_queue_channels := renders_fine;
     render_ranking_channels := renders_fine |}.

Definition entry_10 : QueueEntry :=
  {| entry_player := 10; entry_role := TOP; entry_duo := None |}.

Definition entry_20 : QueueEntry :=
  {| entry_player := 20; entry_role := MID; entry_duo := None |}.

Definition check_30_31 : ReadyCheck.t :=
  {| ReadyCheck.participants := [(30, PlayerStatus.Accepted); (31, PlayerStatus.Pending)];
     ReadyCheck.status := ReadyCheck.Pending |}.

Definition game_40_41 : Game.t :=
  {| Game.id := 7; Game.server := 1;
     Game.participants := [(40, TOP); (41, JGL)];
     Game.state := Game.AwaitingResult |}.

(** Two servers, one player queued in each, a ready-check pending and a game
    awaiting its result on server 1; the scheduler not started yet. *)
Definition two_servers : World :=
  {| guilds := [1; 2]; job_counter := 0;
     queue := <[1 := [entry_10]]> (<[2 := [entry_20]]> ∅);
     ready_checks := <[1 := check_30_31]> ∅;
     games := [game_40_41];
     timers := []; trace := [] |}.

(** The same world with the scheduler's timer pending. *)
Definition two_servers_ticking : World := set_timers [60] two_servers.

(** The same world under a scheduler that ticks every 30 seconds. *)
Definition two_servers_ticking_fast : World := set_timers [30] two_servers.

(** A bot that is in no server. *)
Definition no_server : World :=
  {| guilds := []; job_counter := 0; queue := ∅; ready_checks := ∅;
     games := []; timers := []; trace := [] |}.

(** ** Further readers of a trace *)

Definition is_channel_update (ev : event) : bool :=
  match ev with
  | CreateTask _ (update_queue_channels _) => true
  | _ => false
  end.

(** A call or a task creation made from a timer's thread. *)
Definition runs_on_timer_thread (ev : event) : bool :=
  match ev with
  | Called TimerThread _ | CreateTask TimerThread _ => true
  | _ => false
  end.

Definition is_log_error (ev : event) : bool :=
  match ev with
  | LogError _ => true
  | _ => false
  end.

Definition is_log_info (ev : event) : bool :=
  match ev with
  | LogInfo _ => true
  | _ => false
  end.

(** The number of counter values among [c], [c + 1], ..., [c + n - 1] that
    are multiples of 5: the ticks of a run whose test
    [self.job_counter % 5 == 0] succeeds. *)
Fixpoint multiples_of_5 (c : Z) (n : nat) : nat :=
  match n with
  | O => O
  | S n' => ((if Z.eqb (c mod 5)%Z 0%Z then 1 else 0) + multiples_of_5 (c + 1)%Z n')%nat
  end.

(** A reading of the clock as [datetime] allows it. *)
Definition valid_clock (d : datetime) : Prop :=
  (hour d < 24)%nat /\ (minute d < 60)%nat.

(** The errors [on_command_error] answers with a clause of their own. *)
Definition has_own_clause (error : exception) : bool :=
  match error with
  | CommandNotFound | MissingRequiredArgument | ConversionError
  | NoPrivateMessage | QueueChannelsOnly | SameRolesForDuo | AdminGroupOnly
  | CommandInvokeError PlayerInGame | CommandInvokeError PlayerInReadyCheck => true
  | _ => false
  end.

(** The exception the generic clauses log: [error.original] under
    [CommandInvokeError], the error itself otherwise. *)
Definition logged_error (error : exception) : exception :=
  match error with
  | CommandInvokeError og_error => og_error
  | _ => error
  end.

(** ** [InhouseBot.command_logging]

    The listener reads four attributes of the context.  [ctx.guild] is
    [None] for a command sent in a private message, and [None.name] raises
    [AttributeError]; the f-string evaluates its fields left to right, so
    the content and the author's name are read before that. *)

Record Invocation := {
  message_content : string;                      (* ctx.message.content *)
  author_name : string;                          (* ctx.author.name *)
  guild_name : option string;                    (* ctx.guild.name *)
  channel_name : string                          (* ctx.channel.name *)
}.

Definition tab : string := String (ascii_of_nat 9) EmptyString.

Definition command_logging (ctx : Invocation) : M unit :=
  match guild_name ctx with
  | Some guild =>
      logging_info
        (message_content ctx +:+ tab +:+ author_name ctx +:+ tab
         +:+ guild +:+ tab +:+ channel_name ctx)
  | None => raise (OtherException "'NoneType' object has no attribute 'name'")
  end.

(** No tab character in [s]. *)
Fixpoint tab_free (s : string) : bool :=
  match s with
  | EmptyString => true
  | String c rest => negb (Ascii.eqb c (ascii_of_nat 9)) && tab_free rest
  end.

(** Settings and contexts for the examples of this part. *)

Definition K_unpadded : Constants :=
  {| PREFIX := "!"; INHOUSE_BOT_TOURNAMENTS := false;
     BACKGROUND_JOBS_INTERVAL := 60; QUEUE_RESET_TIME := "9:30" |}.

Definition C_queue_channels_down : Collaborators :=
  {| get_server_config_by_key := fun _ _ => Ok (PyBool true);
     render_queue_channels := fun _ _ => Raise (OtherException "Forbidden");
     render_ranking_channels := renders_fine |}.

Definition C_ranking_channels_down : Collaborators :=
  {| get_server_config_by_key := fun _ _ => Ok (PyBool true);
     render_queue_channels := renders_fine;
     render_ranking_channels := fun _ _ => Raise (OtherException "Forbidden") |}.

Definition in_guild : Invocation :=
  {| message_content := "!queue mid"; author_name := "ann";
     guild_name := Some "inhouse"; channel_name := "queue" |}.

Definition in_private : Invocation :=
  {| message_content := "!queue mid"; author_name := "ann";
     guild_name := None; channel_name := "" |}.

(** ** A tick on any loop *)

(** The loop takes the task: [create_task] returns. *)
Definition accepts (L : Loop) (th : thread) (t : task) : bool :=
  match L th t with
  | None => true
  | Some _ => false
  end.

(** The statements of the [try] block before the tournament test run
    through: there is a first guild, its setting was read, and when the
    tick reset the queue the loop took the channel update. *)
Definition reaches_poll_test
    (L : Loop) (K : Constants) (C : Collaborators) (th : thread) (now : datetime)
    (w : World) : bool :=
  match first_guild_setting C w with
  | Some v =>
      if reset_time K now && truthy v
      then accepts L th (update_queue_channels None)
      else true
  | None => false
  end.

(** The loop takes the tournament check of the first guild. *)
Definition poll_accepted (L : Loop) (th : thread) (w : World) : bool :=
  match guilds w with
  | g :: _ => accepts L th (tournament_check g)
  | [] => false
  end.

(** What one firing of the timer meets: the clock, the settings as they can
    be read at that moment, and the state of the loop. *)
Record tick := {
  tick_clock : datetime;
  tick_settings : Collaborators;
  tick_loop : Loop
}.

Definition timer_fires_on (K : Constants) (t : tick) (w : World)
    : option (result unit * World) :=
  match timers w with
  | [] => None
  | _ :: pending =>
      Some (background_jobs_on (tick_loop t) K (tick_settings t) TimerThread
              (tick_clock t) (set_timers pending w))
  end.

Fixpoint run_on (K : Constants) (ticks : list tick) (w : World) : option World :=
  match ticks with
  | [] => Some w
  | t :: later =>
      match timer_fires_on K t w with
      | Some (_, w') => run_on K later w'
      | None => None
      end
  end.

(** Nothing stands between the tick and its tournament test, and the loop
    takes the check. *)
Definition unhindered (K : Constants) (w : World) (t : tick) : bool :=
  reaches_poll_test (tick_loop t) K (tick_settings t) TimerThread (tick_clock t) w
  && poll_accepted (tick_loop t) TimerThread w.

(** Five firings with settings that change from one to the next, on a
    running loop. *)
Definition five_ticks : list tick :=
  [ {| tick_clock := nine_30; tick_settings := C_all_on; tick_loop := running |};
    {| tick_clock := nine_30; tick_settings := C_first_off; tick_loop := running |};
    {| tick_clock := nine_30; tick_settings := C_first_on; tick_loop := running |};
    {| tick_clock := nine_30; tick_settings := C_first_off; tick_loop := running |};
    {| tick_clock := nine_30; tick_settings := C_all_on; tick_loop := running |} ].

(** Server 1 with a ready-check pending whose participant 30 still holds a
    queue entry. *)
Definition entry_30 : QueueEntry :=
  {| entry_player := 30; entry_role := JGL; entry_duo := None |}.

Definition queued_in_check : World :=
  set_queue (<[1 := [entry_10; entry_30]]> (queue two_servers)) two_servers.

(** * Properties *)

(** ** Worked examples *)

Example strftime_HM_noon : strftime_HM noon_05 = "12:00".
Proof. reflexivity. Qed.

Example strftime_HM_morning : strftime_HM nine_30 = "09:30".
Proof. reflexivity. Qed.

(** A tick at the reset time, every setting on, tournaments on, counter 0. *)
Example tick_at_noon :
  emitted (background_jobs K_tournaments C_all_on TimerThread noon_05) two_servers
  = [Called TimerThread (reset_queue_call None);
     CreateTask TimerThread (update_queue_channels None);
     CreateTask TimerThread (tournament_check 1);
     TimerStart 60].
Proof. vm_compute. reflexivity. Qed.

(** A tick whose setting lookup raises: one log line, then the next timer. *)
Example tick_config_down :
  background_jobs K_tournaments C_config_down TimerThread noon_05 two_servers
  = (Ok tt,
     set_timers [60]
       (set_trace [LogError "error database is locked"; TimerStart 60]
          (set_job_counter 1 two_servers))).
Proof. vm_compute. reflexivity. Qed.

(** A tick of a bot that is in no server: [self.guilds[0]] raises. *)
Example tick_no_server :
  emitted (background_jobs K_tournaments C_all_on TimerThread noon_05) no_server
  = [LogError "error list index out of range"; TimerStart 60].
Proof. vm_compute. reflexivity. Qed.

(** [on_ready] running again while the timer of the earlier session is
    pending (a reconnect) leaves two timers pending. *)
Example reconnect_starts_second_chain :
  timers (on_ready K_plain C_all_on "bot" nine_30 two_servers_ticking).2 = [60; 60].
Proof. vm_compute. reflexivity. Qed.

(** A player who is not barred and not queued joins. *)
Example join_free_player :
  entries (invoke K_plain {| invoked_with := "queue" |} (join 1 60 JGL) two_servers).2 1
  = [entry_10; {| entry_player := 60; entry_role := JGL; entry_duo := None |}].
Proof. vm_compute. reflexivity. Qed.

(** A duo with different roles is inserted as two linked entries. *)
Example duo_joins :
  entries (joinDuo 2 50 TOP 51 SUP two_servers).2 2
  = [entry_20;
     {| entry_player := 50; entry_role := TOP; entry_duo := Some 51 |};
     {| entry_player := 51; entry_role := SUP; entry_duo := Some 50 |}].
Proof. vm_compute. reflexivity. Qed.

(** ** Evaluating a tick *)

Lemma emitted_app {A} (m : M A) (w : World) (evs : list event) :
  trace (m w).2 = trace w ++ evs -> emitted m w = evs.
Proof. intros H. unfold emitted. rewrite H. apply drop_app_length. Qed.

Ltac tick_unfold :=
  unfold background_jobs, background_jobs_on, try_except_finally,
    background_jobs_body, guilds_0_id, reset_queue, create_task, running,
    Timer_start, logging_error, emit, modify, gets, raise,
    lift, mbind, M_bind, bind, mret, M_ret, ret.

Ltac rewrite_known :=
  repeat match goal with H : ?l = _ |- context [?l] => rewrite H end.

(** Splits a tick along the branches of the source: no guild, setting not
    readable, reset time or not, setting truthy or not, tournaments or not,
    counter a multiple of 5 or not. *)
Ltac tick_cases K C w now :=
  let g := fresh "g" in
  let v := fresh "v" in
  let e := fresh "e" in
  tick_unfold;
  destruct (guilds w) as [|g ?] eqn:?;
  [| destruct (get_server_config_by_key C g "queue_reset") as [v|e] eqn:?;
     [ destruct (String.eqb (strftime_HM now) (QUEUE_RESET_TIME K)) eqn:?;
       [ destruct (truthy v) eqn:? |];
       destruct (INHOUSE_BOT_TOURNAMENTS K) eqn:?;
       destruct (Z.eqb (job_counter w mod 5) 0) eqn:?
     | destruct (is_Exception e) eqn:? ] ];
  repeat (progress (cbn; rewrite_known)).

(** The same on any loop: what the loop does with each of the two tasks,
    and the class of what it raises. *)
Ltac tick_cases_on L K C w now th :=
  let g := fresh "g" in
  let v := fresh "v" in
  let e := fresh "e" in
  let eu := fresh "eu" in
  let ep := fresh "ep" in
  tick_unfold;
  destruct (guilds w) as [|g ?] eqn:?;
  [| destruct (get_server_config_by_key C g "queue_reset") as [v|e] eqn:?;
     [ destruct (String.eqb (strftime_HM now) (QUEUE_RESET_TIME K)) eqn:?;
       [ destruct (truthy v) eqn:?;
         [ destruct (L th (update_queue_channels None)) as [eu|] eqn:?;
           [ destruct (is_Exception eu) eqn:? |] |] |];
       destruct (INHOUSE_BOT_TOURNAMENTS K) eqn:?;
       destruct (Z.eqb (job_counter w mod 5) 0) eqn:?;
       (destruct (L th (tournament_check g)) as [ep|] eqn:?;
        [ destruct (is_Exception ep) eqn:? |])
     | destruct (is_Exception e) eqn:? ] ];
  repeat (progress (cbn; rewrite_known)).

Ltac tick_emitted_on L K C w now th :=
  unfold emitted; tick_cases_on L K C w now th;
  rewrite <- ?app_assoc, drop_app_length.

Lemma background_jobs_job_counter K C th now w :
  job_counter (background_jobs K C th now w).2 = job_counter w + 1.
Proof. tick_cases K C w now; reflexivity. Qed.

Lemma background_jobs_timers K C th now w :
  timers (background_jobs K C th now w).2
  = timers w ++ [BACKGROUND_JOBS_INTERVAL K].
Proof. tick_cases K C w now; reflexivity. Qed.

Lemma background_jobs_guilds K C th now w :
  guilds (background_jobs K C th now w).2 = guilds w.
Proof. tick_cases K C w now; reflexivity. Qed.

Lemma background_jobs_ready_checks K C th now w :
  ready_checks (background_jobs K C th now w).2 = ready_checks w.
Proof. tick_cases K C w now; reflexivity. Qed.


Lemma background_jobs_trace K C th now w :
  trace (background_jobs K C th now w).2
  = trace w ++ emitted (background_jobs K C th now) w.
Proof.
  assert (exists evs, trace (background_jobs K C th now w).2 = trace w ++ evs)
    as [evs Hevs].
  { tick_cases K C w now; rewrite <- ?app_assoc; eexists; reflexivity. }
  rewrite (emitted_app _ _ _ Hevs). exact Hevs.
Qed.

Ltac tick_emitted K C w now :=
  unfold emitted; tick_cases K C w now;
  rewrite <- ?app_assoc, drop_app_length.

Lemma background_jobs_emitted_last K C th now w :
  exists evs,
    emitted (background_jobs K C th now) w
    = evs ++ [TimerStart (BACKGROUND_JOBS_INTERVAL K)].
Proof.
  tick_emitted K C w now;
    solve [ exists []; reflexivity
          | eexists [_]; reflexivity
          | eexists [_; _]; reflexivity
          | eexists [_; _; _]; reflexivity ].
Qed.

Lemma background_jobs_resets K C th now w :
  count is_reset (emitted (background_jobs K C th now) w)
  = if reset_time K now && reset_enabled C w then 1%nat else 0%nat.
Proof.
  unfold reset_time, reset_enabled, first_guild_setting.
  tick_emitted K C w now; rewrite ?andb_false_r; reflexivity.
Qed.


(** ** Evaluating a tick on any loop *)

Lemma background_jobs_on_job_counter L K C th now w :
  job_counter (background_jobs_on L K C th now w).2 = job_counter w + 1.
Proof. tick_cases_on L K C w now th; reflexivity. Qed.

Lemma background_jobs_on_timers L K C th now w :
  timers (background_jobs_on L K C th now w).2
  = timers w ++ [BACKGROUND_JOBS_INTERVAL K].
Proof. tick_cases_on L K C w now th; reflexivity. Qed.

Lemma background_jobs_on_guilds L K C th now w :
  guilds (background_jobs_on L K C th now w).2 = guilds w.
Proof. tick_cases_on L K C w now th; reflexivity. Qed.

Lemma background_jobs_on_trace L K C th now w :
  trace (background_jobs_on L K C th now w).2
  = trace w ++ emitted (background_jobs_on L K C th now) w.
Proof.
  assert (exists evs, trace (background_jobs_on L K C th now w).2 = trace w ++ evs)
    as [evs Hevs].
  { tick_cases_on L K C w now th; rewrite <- ?app_assoc; eexists; reflexivity. }
  rewrite (emitted_app _ _ _ Hevs). exact Hevs.
Qed.

Lemma background_jobs_on_polls L K C th now w :
  count is_poll (emitted (background_jobs_on L K C th now) w)
  = if INHOUSE_BOT_TOURNAMENTS K && (job_counter w mod 5 =? 0)
       && reaches_poll_test L K C th now w && poll_accepted L th w
    then 1%nat else 0%nat.
Proof.
  unfold reaches_poll_test, poll_accepted, accepts, reset_time, first_guild_setting.
  tick_emitted_on L K C w now th; rewrite ?andb_false_r; reflexivity.
Qed.

(** ** The timer chain keeps going *)

Lemma timer_fires_alive K C now w :
  timers w <> [] ->
  exists r w', timer_fires K C now w = Some (r, w')
    /\ timers w' <> []
    /\ guilds w' = guilds w
    /\ job_counter w' = job_counter w + 1
    /\ trace w' = trace w ++ emitted (background_jobs K C TimerThread now) w.
Proof.
  intros Hpending. unfold timer_fires.
  destruct (timers w) as [|t pending] eqn:Ht; [congruence|].
  destruct (background_jobs K C TimerThread now (set_timers pending w))
    as [r w'] eqn:Hrun.
  exists r, w'.
  pose proof (background_jobs_timers K C TimerThread now (set_timers pending w)) as Htm.
  pose proof (background_jobs_guilds K C TimerThread now (set_timers pending w)) as Hgu.
  pose proof (background_jobs_job_counter K C TimerThread now (set_timers pending w)) as Hjc.
  pose proof (background_jobs_trace K C TimerThread now (set_timers pending w)) as Htr.
  rewrite Hrun in Htm, Hgu, Hjc, Htr. cbn in Htm, Hgu, Hjc, Htr.
  repeat split; try assumption.
  - rewrite Htm. intros Hnil. apply app_eq_nil in Hnil as [_ Hnil]. discriminate.
  - rewrite Htr. f_equal.
    unfold emitted. cbn. rewrite Hrun. cbn.
    assert (background_jobs K C TimerThread now w
            = (r, set_timers (timers w ++ [BACKGROUND_JOBS_INTERVAL K])
                    (set_timers (timers w) w'))) as Hw.
    { revert Hrun. tick_cases K C w now;
        intros Hrun; inversion Hrun; subst; reflexivity. }
    rewrite Hw. reflexivity.
Qed.




(** ** The tick counter and the polling cadence *)




(** C5, as stated, fails: with tournaments switched off no tick polls, not
    even one that finds the counter at a multiple of 5; and with tournaments
    switched on, a tick that finds the counter at a multiple of 5 on a closed
    loop hands over nothing, because [create_task] raises. *)
Lemma fifth_tick_without_poll :
  job_counter (set_job_counter 5 two_servers) mod 5 = 0
  /\ count is_poll
       (emitted (background_jobs K_plain C_all_on TimerThread nine_30)
          (set_job_counter 5 two_servers))
     = 0%nat
  /\ count is_poll
       (emitted (background_jobs_on closed K_tournaments C_all_on TimerThread nine_30)
          (set_job_counter 5 two_servers))
     = 0%nat.
Proof. split; [|split]; vm_compute; reflexivity. Qed.

(** C5, amended: on any loop, a tick hands a tournament check to the event
    loop exactly when tournaments are switched on, the counter it finds is a
    multiple of 5, the statements before the test ran through (a first guild
    exists, its setting was read, and the loop took the channel update of a
    reset at that tick) and the loop takes the check; every other tick, so
    every tick whose counter is not a multiple of 5, hands over none. *)
Theorem poll_every_fifth_tick L K C th now w :
  existsb is_poll (emitted (background_jobs_on L K C th now) w)
  = INHOUSE_BOT_TOURNAMENTS K && (job_counter w mod 5 =? 0)
    && reaches_poll_test L K C th now w && poll_accepted L th w.
Proof.
  unfold reaches_poll_test, poll_accepted, accepts, reset_time, first_guild_setting.
  tick_emitted_on L K C w now th; rewrite ?andb_false_r; reflexivity.
Qed.

(** ** The daily reset *)

Lemma run_ticks_resets K C ticks : forall w w',
  run_ticks K C ticks w = Some w' ->
  count is_reset (trace w')
  = (count is_reset (trace w)
     + if reset_enabled C w then at_reset_time K ticks else 0)%nat.
Proof.
  induction ticks as [|now later IH]; intros w w' Hrun; cbn [run_ticks] in Hrun.
  - inversion Hrun. unfold at_reset_time. cbn. destruct (reset_enabled C w'); lia.
  - destruct (timers w) as [|t pending] eqn:Ht.
    { unfold timer_fires in Hrun. rewrite Ht in Hrun. discriminate. }
    assert (timers w <> []) as Hpending by (rewrite Ht; discriminate).
    destruct (timer_fires_alive K C now w Hpending)
      as (r & w1 & Hfire & _ & Hg1 & _ & Htr1).
    rewrite Hfire in Hrun. rewrite (IH _ _ Hrun), Htr1.
    assert (reset_enabled C w1 = reset_enabled C w) as ->.
    { unfold reset_enabled, first_guild_setting. rewrite Hg1. reflexivity. }
    unfold count at 1. rewrite List.filter_app, length_app. fold (count is_reset (trace w)).
    fold (count is_reset (emitted (background_jobs K C TimerThread now) w)).
    rewrite background_jobs_resets.
    unfold at_reset_time. cbn [List.filter].
    destruct (reset_time K now), (reset_enabled C w); cbn; lia.
Qed.

(** C3, as stated, fails: under a scheduler that ticks every 30 seconds,
    the ticks at 12:00:05 and 12:00:35 fall inside one minute that shows the
    reset time, and both reset the queue. *)
Lemma reset_twice_in_one_minute :
  same_minute noon_05 noon_35 = true
  /\ reset_time K_fast noon_05 = true
  /\ count is_reset (trace two_servers_ticking_fast) = 0%nat
  /\ exists w',
       run_ticks K_fast C_all_on [noon_05; noon_35] two_servers_ticking_fast
         = Some w'
       /\ count is_reset (trace w') = 2%nat.
Proof.
  split; [reflexivity|]. split; [reflexivity|]. split; [reflexivity|].
  eexists. split; [vm_compute; reflexivity|]. vm_compute. reflexivity.
Qed.

(** C3, amended: a tick resets at most once, and only when the clock it read
    shows the reset time.  Over any run of ticks the number of resets is the
    number of ticks at the reset time when the first guild has the reset
    switched on, and zero otherwise; so a minute that holds one tick sees at
    most one reset, and a minute that holds several sees one per tick. *)
Theorem reset_once_per_matching_tick K C ticks w w' :
  run_ticks K C ticks w = Some w' ->
  count is_reset (trace w')
  = (count is_reset (trace w)
     + if reset_enabled C w then at_reset_time K ticks else 0)%nat
  /\ (count is_reset (trace w') <= count is_reset (trace w) + at_reset_time K ticks)%nat.
Proof.
  intros Hrun. pose proof (run_ticks_resets K C ticks w w' Hrun) as Heq.
  split; [exact Heq|]. rewrite Heq. destruct (reset_enabled C w); lia.
Qed.

Lemma reset_once_per_matching_tick_witness :
  exists w',
    run_ticks K_tournaments C_all_on [nine_30; noon_05] two_servers_ticking = Some w'
    /\ count is_reset (trace w') = 1%nat.
Proof.
  destruct (run_ticks K_tournaments C_all_on [nine_30; noon_05] two_servers_ticking)
    as [w'|] eqn:E; [| vm_compute in E; discriminate].
  exists w'. split; [reflexivity|].
  exact (proj1 (reset_once_per_matching_tick
                  K_tournaments C_all_on [nine_30; noon_05] two_servers_ticking w' E)).
Defined.

Lemma background_jobs_queue K C th now w :
  queue (background_jobs K C th now w).2
  = if reset_time K now && reset_enabled C w then ∅ else queue w.
Proof.
  unfold reset_time, reset_enabled, first_guild_setting.
  tick_cases K C w now; rewrite ?andb_false_r; reflexivity.
Qed.

Lemma background_jobs_emitted_reset K C th now w :
  reset_time K now = true ->
  reset_enabled C w = true ->
  exists rest,
    emitted (background_jobs K C th now) w
    = Called th (reset_queue_call None)
        :: CreateTask th (update_queue_channels None) :: rest
    /\ count mutates_on_timer_thread rest = 0%nat.
Proof.
  unfold reset_time, reset_enabled, first_guild_setting.
  tick_emitted K C w now; intros Htime Hon; try discriminate;
    eexists; (split; [reflexivity|]); reflexivity.
Qed.

(** C1: the code at two inputs where the claim fails.  At the reset time,
    with the reset switched off for the first guild and on for server 2,
    nothing is reset and server 2 keeps its entry; with the reset switched on
    for the first guild and off for server 2, the queue of server 2 is
    emptied all the same.  Only the first guild's setting is read, and the
    reset it decides is not bound to a server. *)
Theorem reset_follows_first_guild_only :
  reset_time K_plain noon_05 = true
  /\ (get_server_config_by_key C_first_off 2 "queue_reset" = Ok (PyBool true)
      /\ entries two_servers 2 = [entry_20]
      /\ entries (background_jobs K_plain C_first_off TimerThread noon_05 two_servers).2 2
         = [entry_20])
  /\ (get_server_config_by_key C_first_on 2 "queue_reset" = Ok (PyBool false)
      /\ entries two_servers 2 = [entry_20]
      /\ entries (background_jobs K_plain C_first_on TimerThread noon_05 two_servers).2 2
         = []).
Proof.
  split; [reflexivity|].
  split; (split; [reflexivity|]); (split; [reflexivity|]); vm_compute; reflexivity.
Qed.

(** C2: at the reset time, with the reset switched on for the first guild, a
    tick fired by a timer calls [reset_queue] itself, on the timer's thread:
    the queue is empty when the tick returns, and the only thing handed to
    the event loop for the reset is the channel update. *)
Theorem reset_runs_on_timer_thread K C now w :
  reset_time K now = true ->
  reset_enabled C w = true ->
  In (Called TimerThread (reset_queue_call None))
     (emitted (background_jobs K C TimerThread now) w)
  /\ count mutates_on_timer_thread (emitted (background_jobs K C TimerThread now) w)
     = 1%nat
  /\ queue (background_jobs K C TimerThread now w).2 = ∅.
Proof.
  intros Htime Hon.
  destruct (background_jobs_emitted_reset K C TimerThread now w Htime Hon)
    as (rest & -> & Hrest).
  split; [left; reflexivity|]. split.
  - unfold count in *. cbn. rewrite Hrest. reflexivity.
  - rewrite background_jobs_queue, Htime, Hon. reflexivity.
Qed.

Lemma reset_runs_on_timer_thread_witness :
  reset_time K_plain noon_05 = true
  /\ reset_enabled C_all_on two_servers_ticking = true
  /\ In (Called TimerThread (reset_queue_call None))
        (emitted (background_jobs K_plain C_all_on TimerThread noon_05)
           two_servers_ticking)
  /\ queue (background_jobs K_plain C_all_on TimerThread noon_05 two_servers_ticking).2
     = ∅.
Proof.
  pose proof (reset_runs_on_timer_thread
                K_plain C_all_on noon_05 two_servers_ticking eq_refl eq_refl)
    as (Hin & _ & Hempty).
  split; [reflexivity|]. split; [reflexivity|]. split; assumption.
Defined.

(** ** Startup *)

Lemma cancel_check_not_pending rc :
  ReadyCheck.status (cancel_check rc) <> ReadyCheck.Pending.
Proof. unfold cancel_check. destruct rc as [ps []]; cbn; discriminate. Qed.

Lemma on_ready_shape K C name now w :
  exists rest,
    trace (on_ready K C name now w).2
    = trace w ++ LogInfo (name +:+ " has connected to Discord")
        :: Called EventLoop cancel_all_ready_checks_call :: rest
    /\ ready_checks (on_ready K C name now w).2 = cancel_check <$> ready_checks w.
Proof.
  unfold on_ready, logging_info, cancel_all_ready_checks,
    await_update_queue_channels, await_update_ranking_channels,
    emit, modify, gets, lift, mbind, M_bind, bind.
  cbn.
  match goal with |- context [render_queue_channels C None ?w1] =>
    destruct (render_queue_channels C None w1) as [[]|e1] end; cbn.
  - match goal with |- context [render_ranking_channels C None ?w2] =>
      destruct (render_ranking_channels C None w2) as [[]|e2] end; cbn.
    + rewrite background_jobs_trace, background_jobs_ready_checks. cbn.
      rewrite <- !app_assoc. cbn. eexists. split; reflexivity.
    + rewrite <- !app_assoc. cbn. eexists. split; reflexivity.
  - rewrite <- !app_assoc. cbn. eexists. split; reflexivity.
Qed.

Lemma on_ready_normal_path K C name now w :
  (forall server w0, render_queue_channels C server w0 = Ok tt) ->
  (forall server w0, render_ranking_channels C server w0 = Ok tt) ->
  exists tick,
    emitted (on_ready K C name now) w
    = [LogInfo (name +:+ " has connected to Discord");
       Called EventLoop cancel_all_ready_checks_call;
       Called EventLoop (update_queue_channels_call None);
       Called EventLoop (update_ranking_channels_call None)]
      ++ tick ++ [TimerStart (BACKGROUND_JOBS_INTERVAL K)].
Proof.
  intros Hq Hr.
  unfold emitted, on_ready, logging_info, cancel_all_ready_checks,
    await_update_queue_channels, await_update_ranking_channels,
    emit, modify, gets, lift, mbind, M_bind, bind.
  cbn. rewrite Hq. cbn. rewrite Hr. cbn.
  match goal with |- context [background_jobs K C EventLoop now ?w3] =>
    pose proof (background_jobs_trace K C EventLoop now w3) as Htrace;
    destruct (background_jobs_emitted_last K C EventLoop now w3) as [tick Hlast];
    rewrite Hlast in Htrace; rewrite Htrace
  end.
  exists tick. cbn. rewrite <- !app_assoc. rewrite drop_app_length. reflexivity.
Qed.

Lemma precedes_second (a b x : event) (rest : list event) :
  b <> x -> b <> a -> precedes a b (x :: a :: rest).
Proof.
  intros Hx Ha pre post Heq.
  destruct pre as [|p1 [|p2 pre]]; cbn in Heq.
  - inversion Heq. congruence.
  - inversion Heq. congruence.
  - inversion Heq. right. left. reflexivity.
Qed.

Lemma on_ready_timers K C name now w :
  timers (on_ready K C name now w).2 = timers w
  \/ timers (on_ready K C name now w).2 = timers w ++ [BACKGROUND_JOBS_INTERVAL K].
Proof.
  unfold on_ready, logging_info, cancel_all_ready_checks,
    await_update_queue_channels, await_update_ranking_channels,
    emit, modify, gets, lift, mbind, M_bind, bind.
  cbn.
  match goal with |- context [render_queue_channels C None ?w1] =>
    destruct (render_queue_channels C None w1) as [[]|e1] end; cbn;
    [|left; reflexivity].
  match goal with |- context [render_ranking_channels C None ?w2] =>
    destruct (render_ranking_channels C None w2) as [[]|e2] end; cbn;
    [|left; reflexivity].
  right. rewrite background_jobs_timers. reflexivity.
Qed.

(** C6, as stated, fails: [on_ready] cancels no timer.  When it runs again
    while the scheduler's timer of the earlier session is pending, that
    timer is still pending afterwards, in front of the one just started,
    and both fire: the earlier session's chain ticks on in the new
    session. *)
Lemma earlier_timer_survives_on_ready :
  timers two_servers_ticking = [60]
  /\ timers (on_ready K_plain C_all_on "bot" nine_30 two_servers_ticking).2 = [60; 60]
  /\ exists w',
       run_ticks K_plain C_all_on [noon_05; noon_35]
         (on_ready K_plain C_all_on "bot" nine_30 two_servers_ticking).2
       = Some w'
       /\ timers w' = [60; 60]
       /\ count is_reset (trace w') = 2%nat.
Proof.
  split; [reflexivity|]. split; [vm_compute; reflexivity|].
  eexists. split; [vm_compute; reflexivity|]. split; vm_compute; reflexivity.
Qed.

(** C6, amended: whatever the channel updates do, the first thing
    [on_ready] does after its log line is to cancel all ready-checks: in its
    trace the cancellation precedes the rewriting of the queue channels,
    every timer start and every task handed to the event loop.  Every check
    that was Pending is Cancelled and the others are as they were, so no
    check is Pending when [on_ready] is over.  No timer is cancelled: the
    timers pending before are all pending after, followed by at most the
    one [on_ready] starts.  When the two channel updates return, the trace
    is: log line, cancellation, queue channels, ranking channels, then the
    first tick, which ends by starting the scheduler's timer. *)
Theorem on_ready_cancels_ready_checks_first K C name now w :
  precedes (Called EventLoop cancel_all_ready_checks_call)
    (Called EventLoop (update_queue_channels_call None))
    (emitted (on_ready K C name now) w)
  /\ (forall interval,
        precedes (Called EventLoop cancel_all_ready_checks_call)
          (TimerStart interval) (emitted (on_ready K C name now) w))
  /\ (forall th t,
        precedes (Called EventLoop cancel_all_ready_checks_call)
          (CreateTask th t) (emitted (on_ready K C name now) w))
  /\ ready_checks (on_ready K C name now w).2 = cancel_check <$> ready_checks w
  /\ (forall server rc,
        ready_checks (on_ready K C name now w).2 !! server = Some rc ->
        ReadyCheck.status rc <> ReadyCheck.Pending)
  /\ (timers (on_ready K C name now w).2 = timers w
      \/ timers (on_ready K C name now w).2
         = timers w ++ [BACKGROUND_JOBS_INTERVAL K])
  /\ ((forall server w0, render_queue_channels C server w0 = Ok tt) ->
      (forall server w0, render_ranking_channels C server w0 = Ok tt) ->
      exists tick,
        emitted (on_ready K C name now) w
        = [LogInfo (name +:+ " has connected to Discord");
           Called EventLoop cancel_all_ready_checks_call;
           Called EventLoop (update_queue_channels_call None);
           Called EventLoop (update_ranking_channels_call None)]
          ++ tick ++ [TimerStart (BACKGROUND_JOBS_INTERVAL K)]).
Proof.
  destruct (on_ready_shape K C name now w) as (rest & Htr & Hrc).
  split; [|split; [|split; [|split; [|split; [|split]]]]];
    [rewrite (emitted_app _ _ _ Htr) ..| | |apply on_ready_timers
    |apply on_ready_normal_path].
  1-3: intros; apply precedes_second; discriminate.
  - exact Hrc.
  - intros server rc Hlook. rewrite Hrc, lookup_fmap in Hlook.
    destruct (ready_checks w !! server) as [rc0|]; cbn in Hlook; [|discriminate].
    inversion Hlook. apply cancel_check_not_pending.
Qed.

Lemma on_ready_cancels_ready_checks_first_witness :
  ready_checks two_servers_ticking !! 1 = Some check_30_31
  /\ ReadyCheck.status check_30_31 = ReadyCheck.Pending
  /\ ready_checks (on_ready K_plain C_all_on "bot" nine_30 two_servers_ticking).2 !! 1
     = Some (cancel_check check_30_31)
  /\ ReadyCheck.status (cancel_check check_30_31) <> ReadyCheck.Pending
  /\ exists tick,
       emitted (on_ready K_plain C_all_on "bot" nine_30) two_servers_ticking
       = [LogInfo "bot has connected to Discord";
          Called EventLoop cancel_all_ready_checks_call;
          Called EventLoop (update_queue_channels_call None);
          Called EventLoop (update_ranking_channels_call None)]
         ++ tick ++ [TimerStart 60].
Proof.
  pose proof (on_ready_cancels_ready_checks_first
                K_plain C_all_on "bot" nine_30 two_servers_ticking)
    as (_ & _ & _ & _ & Hnone & _ & Hnormal).
  assert (ready_checks
            (on_ready K_plain C_all_on "bot" nine_30 two_servers_ticking).2 !! 1
          = Some (cancel_check check_30_31)) as Hlook
    by (vm_compute; reflexivity).
  split; [vm_compute; reflexivity|]. split; [reflexivity|].
  split; [exact Hlook|]. split; [exact (Hnone 1 _ Hlook)|].
  apply Hnormal; reflexivity.
Defined.

(** ** Validation failures and their reports *)

Lemma role_eqb_refl r : role_eqb r r = true.
Proof. destruct r; reflexivity. Qed.

(** C7: a duo request with twice the same role raises [SameRolesForDuo] and
    leaves the world as it was -- neither entry is inserted; the handler
    answers it with one message to the invoking context, and after the
    command and its report the queue is the queue from before. *)
Theorem same_roles_duo_rejected K ctx server playerA roleA playerB roleB w :
  roleA = roleB ->
  joinDuo server playerA roleA playerB roleB w = (Raise SameRolesForDuo, w)
  /\ on_command_error K ctx SameRolesForDuo
     = [Sent "Duos must have different roles" None]
  /\ invoke K ctx (joinDuo server playerA roleA playerB roleB) w
     = (Ok tt, set_trace (trace w ++ [Sent "Duos must have different roles" None]) w)
  /\ queue (invoke K ctx (joinDuo server playerA roleA playerB roleB) w).2 = queue w.
Proof.
  intros ->.
  assert (joinDuo server playerA roleB playerB roleB w = (Raise SameRolesForDuo, w))
    as Hfail.
  { unfold joinDuo. rewrite role_eqb_refl. reflexivity. }
  split; [exact Hfail|]. split; [reflexivity|].
  unfold invoke. rewrite Hfail. split; reflexivity.
Qed.

Lemma same_roles_duo_rejected_witness :
  TOP = TOP
  /\ joinDuo 1 50 TOP 51 TOP two_servers = (Raise SameRolesForDuo, two_servers)
  /\ queue (invoke K_plain {| invoked_with := "duo" |}
              (joinDuo 1 50 TOP 51 TOP) two_servers).2
     = queue two_servers.
Proof.
  pose proof (same_roles_duo_rejected
                K_plain {| invoked_with := "duo" |} 1 50 TOP 51 TOP two_servers
                eq_refl)
    as (Hfail & _ & _ & Hqueue).
  split; [reflexivity|]. split; assumption.
Defined.

(** C8: a join request by a participant of a game awaiting its result, or of
    a Pending ready-check, on that server raises [PlayerInGame] in the first
    case and [PlayerInReadyCheck] otherwise -- the two exceptions that make
    up PlayerBarred -- whether or not the player holds a queue entry, and
    leaves the world as it was.  The handler answers [PlayerInGame] with the
    text about the unscored game and [PlayerInReadyCheck] with the text
    about the game already found, each one message to the invoking context
    that is deleted after 20 seconds; after the command and its report the
    world differs from the one before by that message alone, and the queue
    is the queue from before. *)
Theorem barred_player_cannot_join K ctx server player r w :
  in_awaiting_game w server player = true
  \/ in_pending_ready_check w server player = true ->
  PlayerBarred
    (if in_awaiting_game w server player then PlayerInGame else PlayerInReadyCheck)
  /\ join server player r w
     = (Raise (if in_awaiting_game w server player
               then PlayerInGame else PlayerInReadyCheck), w)
  /\ on_command_error K ctx (CommandInvokeError PlayerInGame)
     = [Sent
          ("Your last game was not scored and you are not allowed to queue at the moment."
           +:+ nl
           +:+ (if INHOUSE_BOT_TOURNAMENTS K
                then "The game will automatically be scored shortly after it ends, "
                else "One of the winners can score the game with `" +:+ PREFIX K
                     +:+ "won`, ")
           +:+ "or players can agree to cancel it with `" +:+ PREFIX K +:+ "cancel`")
          (Some 20)]
  /\ on_command_error K ctx (CommandInvokeError PlayerInReadyCheck)
     = [Sent
          ("A game has already been found for you and you cannot queue until it is accepted or cancelled"
           +:+ nl
           +:+ "If it is a bug, post in #inhouse and ask them to use `" +:+ PREFIX K
           +:+ "admin reset` with your name")
          (Some 20)]
  /\ invoke K ctx (join server player r) w
     = (Ok tt,
        set_trace
          (trace w
           ++ on_command_error K ctx
                (CommandInvokeError
                   (if in_awaiting_game w server player
                    then PlayerInGame else PlayerInReadyCheck)))
          w)
  /\ queue (invoke K ctx (join server player r) w).2 = queue w.
Proof.
  intros Hbarred.
  assert (join server player r w
          = (Raise (if in_awaiting_game w server player
                    then PlayerInGame else PlayerInReadyCheck), w)) as Hfail.
  { unfold join, check_may_queue, gets, raise, mbind, M_bind, bind.
    destruct (in_awaiting_game w server player); [reflexivity|].
    destruct Hbarred as [Hgame | Hcheck]; [discriminate|].
    rewrite Hcheck. reflexivity. }
  split.
  { destruct (in_awaiting_game w server player);
      [left; reflexivity | right; reflexivity]. }
  split; [exact Hfail|]. split; [reflexivity|]. split; [reflexivity|].
  unfold invoke. rewrite Hfail.
  destruct (in_awaiting_game w server player); split; reflexivity.
Qed.

Lemma barred_player_cannot_join_witness :
  (in_awaiting_game two_servers 1 40 = true
   /\ join 1 40 TOP two_servers = (Raise PlayerInGame, two_servers)
   /\ invoke K_plain {| invoked_with := "queue" |} (join 1 40 TOP) two_servers
      = (Ok tt,
         set_trace
           [Sent
              ("Your last game was not scored and you are not allowed to queue at the moment."
               +:+ nl
               +:+ "One of the winners can score the game with `!won`, "
               +:+ "or players can agree to cancel it with `!cancel`")
              (Some 20)]
           two_servers))
  /\ (has_entry queued_in_check 1 30 = true
      /\ in_pending_ready_check queued_in_check 1 30 = true
      /\ join 1 30 SUP queued_in_check = (Raise PlayerInReadyCheck, queued_in_check)
      /\ invoke K_plain {| invoked_with := "queue" |} (join 1 30 SUP) queued_in_check
         = (Ok tt,
            set_trace
              [Sent
                 ("A game has already been found for you and you cannot queue until it is accepted or cancelled"
                  +:+ nl
                  +:+ "If it is a bug, post in #inhouse and ask them to use `!admin reset` with your name")
                 (Some 20)]
              queued_in_check)
      /\ entries
           (invoke K_plain {| invoked_with := "queue" |} (join 1 30 SUP)
              queued_in_check).2 1
         = [entry_10; entry_30]).
Proof.
  pose proof (barred_player_cannot_join
                K_plain {| invoked_with := "queue" |} 1 40 TOP two_servers
                (or_introl eq_refl))
    as (_ & Hjoin40 & _ & _ & Hinvoke40 & _).
  pose proof (barred_player_cannot_join
                K_plain {| invoked_with := "queue" |} 1 30 SUP queued_in_check
                (or_intror eq_refl))
    as (_ & Hjoin30 & _ & _ & Hinvoke30 & Hqueue30).
  split.
  - split; [reflexivity|]. split; [exact Hjoin40 | exact Hinvoke40].
  - split; [reflexivity|]. split; [reflexivity|].
    split; [exact Hjoin30|]. split; [exact Hinvoke30|].
    unfold entries. rewrite Hqueue30. reflexivity.
Defined.

(** C10: the handler sends nothing for a [ConversionError] -- it does nothing
    at all -- and sends exactly one message for every other error, whether
    it has a clause of its own or falls to the generic one. *)
Theorem conversion_error_is_silent K ctx error :
  on_command_error K ctx ConversionError = []
  /\ count is_sent (on_command_error K ctx error)
     = match error with
       | ConversionError => 0%nat
       | _ => 1%nat
       end.
Proof.
  split; [reflexivity|].
  destruct error as [| | | | | | | og | | | | | |]; try reflexivity.
  destruct og; reflexivity.
Qed.

(** * Further properties of the bot *)

(** ** A tick that fails *)

(** X1: in a bot that is in no server, [self.guilds[0]] raises [IndexError]
    before any setting is read: the tick logs that one error, resets and
    polls nothing, adds one to the counter, starts the next timer and
    returns normally, whatever the clock and the collaborators. *)
Theorem tick_in_no_server K C th now w :
  guilds w = [] ->
  background_jobs K C th now w
  = (Ok tt,
     set_timers (timers w ++ [BACKGROUND_JOBS_INTERVAL K])
       (set_trace
          (trace w ++ [LogError "error list index out of range";
                       TimerStart (BACKGROUND_JOBS_INTERVAL K)])
          (set_job_counter (job_counter w + 1) w))).
Proof.
  intros Hnone. tick_unfold. rewrite Hnone. cbn.
  rewrite <- app_assoc. reflexivity.
Qed.

Lemma tick_in_no_server_witness :
  guilds no_server = []
  /\ (background_jobs K_tournaments C_all_on TimerThread noon_05 no_server).1 = Ok tt
  /\ job_counter (background_jobs K_tournaments C_all_on TimerThread noon_05 no_server).2
     = 1.
Proof.
  pose proof (tick_in_no_server K_tournaments C_all_on TimerThread noon_05 no_server
                eq_refl) as Htick.
  split; [reflexivity|]. rewrite Htick. split; reflexivity.
Defined.

(** X2: when the first guild's setting cannot be read, the rest of the
    [try] block is skipped even at the reset time: the queue is untouched
    and nothing is handed to the event loop.  An exception of class
    [Exception] is logged with its text and the tick returns normally; any
    other exception leaves the tick unlogged, after the counter was
    incremented and the next timer started all the same. *)
Theorem tick_setting_unreadable K C th now w g gs e :
  guilds w = g :: gs ->
  get_server_config_by_key C g "queue_reset" = Raise e ->
  background_jobs K C th now w
  = (if is_Exception e then Ok tt else Raise e,
     set_timers (timers w ++ [BACKGROUND_JOBS_INTERVAL K])
       (set_trace
          (trace w
           ++ (if is_Exception e
               then [LogError ("error " +:+ exception_str e)] else [])
           ++ [TimerStart (BACKGROUND_JOBS_INTERVAL K)])
          (set_job_counter (job_counter w + 1) w))).
Proof.
  intros Hg Hraise. tick_unfold. rewrite Hg. cbn. rewrite Hraise. cbn.
  destruct (is_Exception e); cbn; rewrite <- ?app_assoc; reflexivity.
Qed.

Lemma tick_setting_unreadable_witness :
  guilds two_servers = [1; 2]
  /\ get_server_config_by_key C_config_down 1 "queue_reset"
     = Raise (OtherException "database is locked")
  /\ emitted (background_jobs K_tournaments C_config_down TimerThread noon_05) two_servers
     = [LogError "error database is locked"; TimerStart 60]
  /\ queue (background_jobs K_tournaments C_config_down TimerThread noon_05 two_servers).2
     = queue two_servers.
Proof.
  pose proof (tick_setting_unreadable
                K_tournaments C_config_down TimerThread noon_05 two_servers
                1 [2] (OtherException "database is locked") eq_refl eq_refl)
    as Htick.
  split; [reflexivity|]. split; [reflexivity|].
  unfold emitted. rewrite Htick. split; reflexivity.
Defined.

(** ** What a tick does to the queue *)

(** X3: a tick whose clock does not show the reset time, or whose first
    guild has the reset switched off, missing or unreadable, leaves the
    queue exactly as it found it: it calls no reset and creates no
    channel-update task. *)
Theorem tick_without_reset K C th now w :
  reset_time K now = false \/ reset_enabled C w = false ->
  queue (background_jobs K C th now w).2 = queue w
  /\ count is_reset (emitted (background_jobs K C th now) w) = 0%nat
  /\ count is_channel_update (emitted (background_jobs K C th now) w) = 0%nat.
Proof.
  intros Hoff.
  assert (reset_time K now && reset_enabled C w = false) as Hboth.
  { destruct Hoff as [-> | ->]; [reflexivity | apply andb_false_r]. }
  split; [rewrite background_jobs_queue, Hboth; reflexivity|].
  split; [rewrite background_jobs_resets, Hboth; reflexivity|].
  clear Hoff. revert Hboth. unfold reset_time, reset_enabled, first_guild_setting.
  tick_emitted K C w now; intros Hboth; try discriminate; reflexivity.
Qed.

Lemma tick_without_reset_witness :
  reset_time K_tournaments nine_30 = false
  /\ queue (background_jobs K_tournaments C_all_on TimerThread nine_30 two_servers).2
     = queue two_servers.
Proof.
  split; [reflexivity|].
  exact (proj1 (tick_without_reset K_tournaments C_all_on TimerThread nine_30
                  two_servers (or_introl eq_refl))).
Defined.

(** A tick at the reset time on a closed loop: the reset is made, then
    [create_task] raises and the rest of the [try] block is skipped. *)
Example tick_at_noon_closed_loop :
  emitted (background_jobs_on closed K_tournaments C_all_on TimerThread noon_05)
    two_servers
  = [Called TimerThread (reset_queue_call None);
     LogError "error Event loop is closed";
     TimerStart 60].
Proof. vm_compute. reflexivity. Qed.

(** X4: on any loop, a channel update is handed over only right after the
    reset, and a tick does each at most once.  Either the tick does neither;
    or it calls the reset first and, the loop taking the task, hands over
    the update of all servers' queue channels next; or it calls the reset
    first and [create_task] raises: then the reset has been made, no
    channel update is handed over, and the tournament check of that tick
    is skipped with the rest of the [try] block. *)
Theorem reset_then_channel_update L K C th now w :
  (count is_reset (emitted (background_jobs_on L K C th now) w) = 0%nat
   /\ count is_channel_update (emitted (background_jobs_on L K C th now) w) = 0%nat)
  \/ (accepts L th (update_queue_channels None) = true
      /\ exists rest,
           emitted (background_jobs_on L K C th now) w
           = Called th (reset_queue_call None)
               :: CreateTask th (update_queue_channels None) :: rest
           /\ count is_reset rest = 0%nat
           /\ count is_channel_update rest = 0%nat)
  \/ (accepts L th (update_queue_channels None) = false
      /\ exists rest,
           emitted (background_jobs_on L K C th now) w
           = Called th (reset_queue_call None) :: rest
           /\ count is_reset rest = 0%nat
           /\ count is_channel_update rest = 0%nat
           /\ count is_poll rest = 0%nat).
Proof.
  unfold accepts.
  tick_emitted_on L K C w now th;
    solve [ left; split; reflexivity
          | right; left; split; [reflexivity|];
            eexists; split; [reflexivity|]; split; reflexivity
          | right; right; split; [reflexivity|];
            eexists; split; [reflexivity|]; split; [reflexivity|];
            split; reflexivity ].
Qed.

(** ** Which guild is polled *)

(** X5: every tournament check a tick creates is for the first guild of
    [self.guilds] and is created from the thread the tick runs on; no other
    guild is ever checked. *)
Theorem poll_is_for_first_guild K C th now w th' server :
  In (CreateTask th' (tournament_check server))
     (emitted (background_jobs K C th now) w) ->
  th' = th /\ exists others, guilds w = server :: others.
Proof.
  unfold emitted. tick_cases K C w now.
  all: rewrite <- ?app_assoc, drop_app_length.
  all: cbn; intros Hin.
  all: repeat match goal with
         | H : _ \/ _ |- _ => destruct H
         | H : False |- _ => destruct H
         | H : CreateTask _ _ = CreateTask _ _ |- _ => inversion H; subst; clear H
         | H : _ = CreateTask _ _ |- _ => discriminate H
         end.
  all: split; [reflexivity | eexists; reflexivity].
Qed.

Lemma poll_is_for_first_guild_witness :
  In (CreateTask TimerThread (tournament_check 1))
     (emitted (background_jobs K_tournaments C_all_on TimerThread nine_30) two_servers)
  /\ TimerThread = TimerThread
  /\ exists others, guilds two_servers = 1 :: others.
Proof.
  assert (In (CreateTask TimerThread (tournament_check 1))
            (emitted (background_jobs K_tournaments C_all_on TimerThread nine_30)
               two_servers)) as Hin
    by (vm_compute; left; reflexivity).
  split; [exact Hin|].
  exact (poll_is_for_first_guild K_tournaments C_all_on TimerThread nine_30
           two_servers TimerThread 1 Hin).
Defined.

(** ** The polling cadence over a run of ticks *)

Lemma multiples_of_5_in_five c : multiples_of_5 c 5 = 1%nat.
Proof.
  cbn [multiples_of_5].
  repeat match goal with
         | |- context [Z.eqb ?a 0] => destruct (Z.eqb_spec a 0)
         end;
    Z.div_mod_to_equations; lia.
Qed.

Lemma unhindered_guilds K w1 w2 t :
  guilds w1 = guilds w2 -> unhindered K w1 t = unhindered K w2 t.
Proof.
  intros Hg.
  unfold unhindered, reaches_poll_test, poll_accepted, first_guild_setting.
  rewrite Hg. reflexivity.
Qed.

Lemma forallb_unhindered_guilds K w1 w2 ticks :
  guilds w1 = guilds w2 ->
  forallb (unhindered K w1) ticks = forallb (unhindered K w2) ticks.
Proof.
  intros Hg. induction ticks as [|t later IH]; [reflexivity|].
  cbn [forallb]. rewrite IH, (unhindered_guilds K w1 w2 t Hg). reflexivity.
Qed.

Lemma run_on_polls K ticks : forall w w',
  run_on K ticks w = Some w' ->
  (count is_poll (trace w')
   <= count is_poll (trace w) + multiples_of_5 (job_counter w) (length ticks))%nat
  /\ (INHOUSE_BOT_TOURNAMENTS K = true ->
      forallb (unhindered K w) ticks = true ->
      count is_poll (trace w')
      = (count is_poll (trace w) + multiples_of_5 (job_counter w) (length ticks))%nat)
  /\ (INHOUSE_BOT_TOURNAMENTS K = false ->
      count is_poll (trace w') = count is_poll (trace w)).
Proof.
  induction ticks as [|t later IH]; intros w w' Hrun; cbn [run_on] in Hrun.
  - inversion Hrun. cbn. repeat split; intros; lia.
  - unfold timer_fires_on in Hrun.
    destruct (timers w) as [|x pending] eqn:Ht; [discriminate|].
    destruct (background_jobs_on (tick_loop t) K (tick_settings t) TimerThread
                (tick_clock t) (set_timers pending w)) as [r w1] eqn:Hstep.
    pose proof (background_jobs_on_guilds (tick_loop t) K (tick_settings t)
                  TimerThread (tick_clock t) (set_timers pending w)) as Hg.
    pose proof (background_jobs_on_job_counter (tick_loop t) K (tick_settings t)
                  TimerThread (tick_clock t) (set_timers pending w)) as Hjc.
    pose proof (background_jobs_on_trace (tick_loop t) K (tick_settings t)
                  TimerThread (tick_clock t) (set_timers pending w)) as Htr.
    pose proof (background_jobs_on_polls (tick_loop t) K (tick_settings t)
                  TimerThread (tick_clock t) (set_timers pending w)) as Hp.
    rewrite Hstep in Hg, Hjc, Htr. simpl snd in Hg, Hjc, Htr.
    change (guilds (set_timers pending w)) with (guilds w) in Hg.
    change (job_counter (set_timers pending w)) with (job_counter w) in Hjc, Hp.
    change (trace (set_timers pending w)) with (trace w) in Htr.
    change (reaches_poll_test (tick_loop t) K (tick_settings t) TimerThread
              (tick_clock t) (set_timers pending w))
      with (reaches_poll_test (tick_loop t) K (tick_settings t) TimerThread
              (tick_clock t) w) in Hp.
    change (poll_accepted (tick_loop t) TimerThread (set_timers pending w))
      with (poll_accepted (tick_loop t) TimerThread w) in Hp.
    assert (count is_poll (trace w1)
            = (count is_poll (trace w)
               + if INHOUSE_BOT_TOURNAMENTS K && Z.eqb (job_counter w mod 5)%Z 0%Z
                    && unhindered K w t
                 then 1 else 0)%nat) as Hone.
    { rewrite Htr. unfold count at 1. rewrite List.filter_app, length_app.
      fold (count is_poll (trace w)).
      fold (count is_poll
              (emitted (background_jobs_on (tick_loop t) K (tick_settings t)
                          TimerThread (tick_clock t)) (set_timers pending w))).
      rewrite Hp. unfold unhindered. rewrite andb_assoc. reflexivity. }
    destruct (IH w1 w' Hrun) as (Hle & Heq & Hoff).
    rewrite Hjc in Hle, Heq. cbn [length multiples_of_5].
    rewrite (forallb_unhindered_guilds K w1 w later Hg) in Heq.
    split; [|split].
    + rewrite Hone in Hle.
      destruct (INHOUSE_BOT_TOURNAMENTS K), (job_counter w mod 5 =? 0),
        (unhindered K w t); cbn in Hle |- *; lia.
    + intros Hon Hall. cbn [forallb] in Hall.
      apply andb_true_iff in Hall as [Ht1 Hall].
      rewrite (Heq Hon Hall), Hone, Hon, Ht1.
      destruct (job_counter w mod 5 =? 0); cbn; lia.
    + intros Hoff'. rewrite (Hoff Hoff'), Hone, Hoff'. cbn. lia.
Qed.

(** X6: over any run of timer firings -- whatever the settings read and the
    loop do at each of them -- the polls follow the counter: a tournament
    check is created only on a tick whose counter is a multiple of 5, so a
    run creates at most one per such tick and any five consecutive ticks at
    most one.  With tournaments on and every tick unhindered (a first
    guild, its setting readable, the loop taking the tasks) the run creates
    exactly one per such tick, so five consecutive ticks exactly one; with
    tournaments off it creates none. *)
Theorem poll_cadence K ticks w w' :
  run_on K ticks w = Some w' ->
  (count is_poll (trace w')
   <= count is_poll (trace w) + multiples_of_5 (job_counter w) (length ticks))%nat
  /\ (length ticks = 5%nat ->
      (count is_poll (trace w') <= count is_poll (trace w) + 1)%nat)
  /\ (INHOUSE_BOT_TOURNAMENTS K = true ->
      forallb (unhindered K w) ticks = true ->
      count is_poll (trace w')
      = (count is_poll (trace w) + multiples_of_5 (job_counter w) (length ticks))%nat)
  /\ (INHOUSE_BOT_TOURNAMENTS K = true ->
      forallb (unhindered K w) ticks = true ->
      length ticks = 5%nat ->
      count is_poll (trace w') = (count is_poll (trace w) + 1)%nat)
  /\ (INHOUSE_BOT_TOURNAMENTS K = false ->
      count is_poll (trace w') = count is_poll (trace w)).
Proof.
  intros Hrun. destruct (run_on_polls K ticks w w' Hrun) as (Hle & Heq & Hoff).
  split; [exact Hle|]. split.
  { intros Hfive. rewrite Hfive, multiples_of_5_in_five in Hle. exact Hle. }
  split; [exact Heq|]. split; [|exact Hoff].
  intros Hon Hall Hfive.
  rewrite (Heq Hon Hall), Hfive, multiples_of_5_in_five. reflexivity.
Qed.

Lemma poll_cadence_witness :
  exists w',
    run_on K_tournaments five_ticks (set_job_counter 3 two_servers_ticking) = Some w'
    /\ INHOUSE_BOT_TOURNAMENTS K_tournaments = true
    /\ forallb (unhindered K_tournaments (set_job_counter 3 two_servers_ticking))
         five_ticks = true
    /\ length five_ticks = 5%nat
    /\ count is_poll (trace w') = 1%nat.
Proof.
  destruct (run_on K_tournaments five_ticks (set_job_counter 3 two_servers_ticking))
    as [w'|] eqn:E; [| vm_compute in E; discriminate].
  exists w'. do 4 (split; [reflexivity|]).
  exact (proj1 (proj2 (proj2 (proj2 (poll_cadence K_tournaments five_ticks
                                       (set_job_counter 3 two_servers_ticking) w' E))))
           eq_refl eq_refl eq_refl).
Defined.

(** ** The reset time as a string *)

Lemma strftime_HM_length d : String.length (strftime_HM d) = 5%nat.
Proof. reflexivity. Qed.

Lemma at_reset_time_never K ticks :
  (forall now, reset_time K now = false) -> at_reset_time K ticks = 0%nat.
Proof.
  intros Hnever. unfold at_reset_time.
  induction ticks as [|now later IH]; [reflexivity|].
  cbn [List.filter]. rewrite Hnever. exact IH.
Qed.

(** X7: [strftime("%H:%M")] always yields five characters, so a reset time
    configured in any other shape -- "9:30" for "09:30", or with seconds --
    matches no reading of the clock: no tick resets the queue, and no run of
    ticks adds a reset to the trace. *)
Theorem reset_time_needs_five_characters K :
  String.length (QUEUE_RESET_TIME K) <> 5%nat ->
  (forall now, reset_time K now = false)
  /\ (forall C th now w,
        queue (background_jobs K C th now w).2 = queue w
        /\ count is_reset (emitted (background_jobs K C th now) w) = 0%nat)
  /\ (forall C ticks w w',
        run_ticks K C ticks w = Some w' ->
        count is_reset (trace w') = count is_reset (trace w)).
Proof.
  intros Hshape.
  assert (forall now, reset_time K now = false) as Hnever.
  { intros now. unfold reset_time.
    destruct (String.eqb_spec (strftime_HM now) (QUEUE_RESET_TIME K)) as [Heq|];
      [|reflexivity].
    exfalso. apply Hshape. rewrite <- Heq. apply strftime_HM_length. }
  split; [exact Hnever|]. split.
  - intros C th now w.
    rewrite background_jobs_queue, background_jobs_resets, Hnever. split; reflexivity.
  - intros C ticks w w' Hrun.
    rewrite (run_ticks_resets K C ticks w w' Hrun), (at_reset_time_never K ticks Hnever).
    destruct (reset_enabled C w); lia.
Qed.

Lemma reset_time_needs_five_characters_witness :
  String.length (QUEUE_RESET_TIME K_unpadded) <> 5%nat
  /\ reset_time K_unpadded nine_30 = false
  /\ queue (background_jobs K_unpadded C_all_on TimerThread nine_30 two_servers).2
     = queue two_servers.
Proof.
  assert (String.length (QUEUE_RESET_TIME K_unpadded) <> 5%nat) as Hshape
    by (cbn; lia).
  pose proof (reset_time_needs_five_characters K_unpadded Hshape)
    as (Hnever & Htick & _).
  split; [exact Hshape|]. split; [exact (Hnever nine_30)|].
  exact (proj1 (Htick C_all_on TimerThread nine_30 two_servers)).
Defined.

Lemma digit_inj n m : digit n = digit m -> (n mod 10 = m mod 10)%nat.
Proof.
  unfold digit. intros Heq. apply (f_equal nat_of_ascii) in Heq.
  pose proof (Nat.mod_upper_bound n 10 ltac:(lia)).
  pose proof (Nat.mod_upper_bound m 10 ltac:(lia)).
  rewrite !nat_ascii_embedding in Heq by lia. lia.
Qed.

Lemma two_digits_inj n m :
  (n < 100)%nat -> (m < 100)%nat -> two_digits n = two_digits m -> n = m.
Proof.
  intros Hn Hm Heq. unfold two_digits in Heq.
  assert (digit (n / 10) = digit (m / 10) /\ digit n = digit m) as [Htens Hunits]
    by (injection Heq; intros; split; assumption).
  apply digit_inj in Htens. apply digit_inj in Hunits.
  pose proof (Nat.div_mod_eq n 10). pose proof (Nat.div_mod_eq m 10).
  assert (n / 10 < 10)%nat by (apply Nat.Div0.div_lt_upper_bound; lia).
  assert (m / 10 < 10)%nat by (apply Nat.Div0.div_lt_upper_bound; lia).
  assert ((n / 10) mod 10 = n / 10)%nat as Hn10 by (apply Nat.mod_small; assumption).
  assert ((m / 10) mod 10 = m / 10)%nat as Hm10 by (apply Nat.mod_small; assumption).
  lia.
Qed.

(** X8: on valid readings of the clock the text [strftime("%H:%M")] yields
    determines hour and minute, so the clock readings that match a given
    reset time all show one and the same minute of the day. *)
Theorem reset_time_is_one_minute_of_the_day K a b :
  valid_clock a ->
  valid_clock b ->
  reset_time K a = true ->
  reset_time K b = true ->
  hour a = hour b /\ minute a = minute b.
Proof.
  intros [Hha Hma] [Hhb Hmb] Ha Hb. unfold reset_time in Ha, Hb.
  apply String.eqb_eq in Ha. apply String.eqb_eq in Hb.
  assert (strftime_HM a = strftime_HM b) as Heq by congruence.
  assert (two_digits (hour a) = two_digits (hour b)
          /\ two_digits (minute a) = two_digits (minute b)) as [Hh Hm].
  { unfold strftime_HM, two_digits in Heq. cbn in Heq.
    injection Heq. intros.
    split; unfold two_digits; f_equal; first [assumption | f_equal; assumption]. }
  split; apply two_digits_inj; solve [lia | assumption].
Qed.

Lemma reset_time_is_one_minute_of_the_day_witness :
  valid_clock noon_05 /\ valid_clock noon_35
  /\ reset_time K_plain noon_05 = true /\ reset_time K_plain noon_35 = true
  /\ hour noon_05 = hour noon_35 /\ minute noon_05 = minute noon_35.
Proof.
  assert (valid_clock noon_05) as Ha by (split; cbn; lia).
  assert (valid_clock noon_35) as Hb by (split; cbn; lia).
  split; [exact Ha|]. split; [exact Hb|].
  split; [reflexivity|]. split; [reflexivity|].
  exact (reset_time_is_one_minute_of_the_day K_plain noon_05 noon_35
           Ha Hb eq_refl eq_refl).
Defined.

(** ** Startup that fails, startup that repeats *)

Ltac on_ready_unfold :=
  unfold on_ready, logging_info, cancel_all_ready_checks,
    await_update_queue_channels, await_update_ranking_channels,
    emit, modify, gets, lift, mbind, M_bind, bind; cbn.

(** X9: [on_ready] has no handler around its two channel updates.  When
    the update of the queue channels raises, the exception leaves
    [on_ready] after the log line, the cancellation and that call: the
    ranking channels are not touched and the scheduler is never started (no
    timer, counter unchanged).  When only the update of the ranking
    channels raises, the same holds one call later. *)
Theorem on_ready_stops_at_failed_update K C name now w e :
  ((forall w0, render_queue_channels C None w0 = Raise e) ->
   (on_ready K C name now w).1 = Raise e
   /\ timers (on_ready K C name now w).2 = timers w
   /\ job_counter (on_ready K C name now w).2 = job_counter w
   /\ emitted (on_ready K C name now) w
      = [LogInfo (name +:+ " has connected to Discord");
         Called EventLoop cancel_all_ready_checks_call;
         Called EventLoop (update_queue_channels_call None)])
  /\ ((forall w0, render_queue_channels C None w0 = Ok tt) ->
      (forall w0, render_ranking_channels C None w0 = Raise e) ->
      (on_ready K C name now w).1 = Raise e
      /\ timers (on_ready K C name now w).2 = timers w
      /\ job_counter (on_ready K C name now w).2 = job_counter w
      /\ emitted (on_ready K C name now) w
         = [LogInfo (name +:+ " has connected to Discord");
            Called EventLoop cancel_all_ready_checks_call;
            Called EventLoop (update_queue_channels_call None);
            Called EventLoop (update_ranking_channels_call None)]).
Proof.
  split.
  - intros Hq. unfold emitted. on_ready_unfold. rewrite Hq. cbn.
    repeat split. rewrite <- !app_assoc, drop_app_length. reflexivity.
  - intros Hq Hr. unfold emitted. on_ready_unfold. rewrite Hq. cbn.
    rewrite Hr. cbn.
    repeat split. rewrite <- !app_assoc, drop_app_length. reflexivity.
Qed.

Lemma on_ready_stops_at_failed_update_witness :
  ((on_ready K_plain C_queue_channels_down "bot" nine_30 two_servers).1
   = Raise (OtherException "Forbidden")
   /\ timers (on_ready K_plain C_queue_channels_down "bot" nine_30 two_servers).2 = [])
  /\ ((on_ready K_plain C_ranking_channels_down "bot" nine_30 two_servers).1
      = Raise (OtherException "Forbidden")
      /\ timers (on_ready K_plain C_ranking_channels_down "bot" nine_30 two_servers).2
         = []).
Proof.
  pose proof (proj1 (on_ready_stops_at_failed_update
                       K_plain C_queue_channels_down "bot" nine_30 two_servers
                       (OtherException "Forbidden"))
                (fun _ => eq_refl)) as (Hq1 & Hq2 & _).
  pose proof (proj2 (on_ready_stops_at_failed_update
                       K_plain C_ranking_channels_down "bot" nine_30 two_servers
                       (OtherException "Forbidden"))
                (fun _ => eq_refl) (fun _ => eq_refl)) as (Hr1 & Hr2 & _).
  split; split; assumption.
Defined.

Lemma on_ready_timers_ok K C name now w :
  (forall w0, render_queue_channels C None w0 = Ok tt) ->
  (forall w0, render_ranking_channels C None w0 = Ok tt) ->
  timers (on_ready K C name now w).2 = timers w ++ [BACKGROUND_JOBS_INTERVAL K]
  /\ job_counter (on_ready K C name now w).2 = job_counter w + 1.
Proof.
  intros Hq Hr. on_ready_unfold. rewrite Hq. cbn. rewrite Hr. cbn.
  rewrite background_jobs_timers, background_jobs_job_counter. split; reflexivity.
Qed.

(** X10: [on_ready] never cancels a timer: the timers pending before are
    still pending after, followed by at most the one it starts.  When both
    channel updates return it starts exactly one, so an [on_ready] that runs
    again while the timer of an earlier run is pending (a reconnect) leaves
    two timer chains ticking, and the counter has advanced once per run. *)
Theorem on_ready_keeps_pending_timers K C name now name' now' w :
  (timers (on_ready K C name now w).2 = timers w
   \/ timers (on_ready K C name now w).2 = timers w ++ [BACKGROUND_JOBS_INTERVAL K])
  /\ ((forall w0, render_queue_channels C None w0 = Ok tt) ->
      (forall w0, render_ranking_channels C None w0 = Ok tt) ->
      timers (on_ready K C name now w).2 = timers w ++ [BACKGROUND_JOBS_INTERVAL K]
      /\ timers (on_ready K C name' now' (on_ready K C name now w).2).2
         = timers w ++ [BACKGROUND_JOBS_INTERVAL K; BACKGROUND_JOBS_INTERVAL K]
      /\ job_counter (on_ready K C name' now' (on_ready K C name now w).2).2
         = job_counter w + 2).
Proof.
  split.
  - on_ready_unfold.
    match goal with |- context [render_queue_channels C None ?w1] =>
      destruct (render_queue_channels C None w1) as [[]|e1] end; cbn;
      [|left; reflexivity].
    match goal with |- context [render_ranking_channels C None ?w2] =>
      destruct (render_ranking_channels C None w2) as [[]|e2] end; cbn;
      [|left; reflexivity].
    right. rewrite background_jobs_timers. reflexivity.
  - intros Hq Hr.
    destruct (on_ready_timers_ok K C name now w Hq Hr) as [Ht1 Hc1].
    destruct (on_ready_timers_ok K C name' now' (on_ready K C name now w).2 Hq Hr)
      as [Ht2 Hc2].
    split; [exact Ht1|]. split.
    + rewrite Ht2, Ht1, <- app_assoc. reflexivity.
    + rewrite Hc2, Hc1. lia.
Qed.

Lemma on_ready_keeps_pending_timers_witness :
  timers (on_ready K_plain C_all_on "bot" noon_05
            (on_ready K_plain C_all_on "bot" nine_30 two_servers).2).2
  = [60; 60].
Proof.
  exact (proj1 (proj2 (proj2 (on_ready_keeps_pending_timers
                                K_plain C_all_on "bot" nine_30 "bot" noon_05
                                two_servers)
                         (fun _ => eq_refl) (fun _ => eq_refl)))).
Defined.

(** ** Replies of the error handler *)

(** X11: the only replies [on_command_error] sends with [delete_after] are
    the two for a barred player inside [CommandInvokeError]; they disappear
    after 20 seconds, every other reply stays. *)
Theorem auto_delete_only_for_barred K ctx error content seconds :
  In (Sent content (Some seconds)) (on_command_error K ctx error) ->
  seconds = 20
  /\ (error = CommandInvokeError PlayerInGame
      \/ error = CommandInvokeError PlayerInReadyCheck).
Proof.
  intros Hin.
  destruct error as [| | | | | | | og | | | | | |]; cbn in Hin;
    try (destruct og; cbn in Hin);
    repeat match goal with
           | H : _ \/ _ |- _ => destruct H
           | H : False |- _ => destruct H
           | H : ctx_send _ = Sent _ _ |- _ => discriminate H
           | H : LogError _ = Sent _ _ |- _ => discriminate H
           | H : ctx_send_delete_after _ _ = Sent _ _ |- _ =>
               inversion H; subst; clear H
           end;
    (split; [reflexivity|]); solve [left; reflexivity | right; reflexivity].
Qed.

Lemma auto_delete_only_for_barred_witness :
  exists content,
    In (Sent content (Some 20))
       (on_command_error K_plain {| invoked_with := "queue" |}
          (CommandInvokeError PlayerInReadyCheck))
    /\ 20 = 20.
Proof.
  eexists. 
  assert (In (Sent _ (Some 20))
            (on_command_error K_plain {| invoked_with := "queue" |}
               (CommandInvokeError PlayerInReadyCheck))) as Hin
    by (left; reflexivity).
  split; [exact Hin|].
  exact (proj1 (auto_delete_only_for_barred
                  K_plain {| invoked_with := "queue" |}
                  (CommandInvokeError PlayerInReadyCheck) _ 20 Hin)).
Defined.

(** X12: an error without a clause of its own gets the generic reply and one
    error log line with the text of the error -- of [error.original] when
    it came inside [CommandInvokeError].  The clauses for the named classes
    apply at top level only: inside [CommandInvokeError] any original other
    than [PlayerInGame] and [PlayerInReadyCheck] is answered generically,
    a wrapped [SameRolesForDuo] or [ConversionError] included.  An error
    with a clause of its own is never logged. *)
Theorem errors_without_clause_are_logged K ctx error :
  (has_own_clause error = false ->
   on_command_error K ctx error
   = [Sent (generic_error_message K) None;
      LogError (exception_str (logged_error error))])
  /\ (has_own_clause error = true ->
      count is_log_error (on_command_error K ctx error) = 0%nat).
Proof.
  split; intros Hclause;
    destruct error as [| | | | | | | og | | | | | |];
    try discriminate Hclause; try reflexivity;
    destruct og; try discriminate Hclause; reflexivity.
Qed.

Lemma errors_without_clause_are_logged_witness :
  has_own_clause (CommandInvokeError SameRolesForDuo) = false
  /\ on_command_error K_plain {| invoked_with := "duo" |}
       (CommandInvokeError SameRolesForDuo)
     = [Sent (generic_error_message K_plain) None; LogError ""]
  /\ has_own_clause NoPrivateMessage = true
  /\ count is_log_error
       (on_command_error K_plain {| invoked_with := "duo" |} NoPrivateMessage)
     = 0%nat.
Proof.
  split; [reflexivity|].
  split; [exact (proj1 (errors_without_clause_are_logged
                          K_plain {| invoked_with := "duo" |}
                          (CommandInvokeError SameRolesForDuo)) eq_refl)|].
  split; [reflexivity|].
  exact (proj2 (errors_without_clause_are_logged
                  K_plain {| invoked_with := "duo" |} NoPrivateMessage) eq_refl).
Defined.

(** ** The command log *)

(** X13: [command_logging] writes its line only for a command invoked in a
    guild.  For a command sent in a private message [ctx.guild] is [None]:
    the listener raises before it logs anything and leaves the world as it
    was, so the log holds no line for that command. *)
Theorem command_logging_needs_a_guild ctx w :
  ((command_logging ctx w).1 = Ok tt <-> guild_name ctx <> None)
  /\ (guild_name ctx = None ->
      (command_logging ctx w).2 = w
      /\ exists e, (command_logging ctx w).1 = Raise e /\ is_Exception e = true)
  /\ count is_log_info (emitted (command_logging ctx) w)
     = match guild_name ctx with Some _ => 1%nat | None => 0%nat end.
Proof.
  unfold emitted, command_logging, logging_info, emit, modify, raise.
  destruct (guild_name ctx) as [guild|]; cbn.
  - split; [split; [discriminate | reflexivity]|].
    split; [discriminate|]. rewrite drop_app_length. reflexivity.
  - split; [split; [discriminate | congruence]|].
    split; [|rewrite drop_all; reflexivity].
    intros _. split; [reflexivity|]. eexists. split; reflexivity.
Qed.

Lemma command_logging_needs_a_guild_witness :
  guild_name in_private = None
  /\ (command_logging in_private two_servers).2 = two_servers
  /\ (command_logging in_guild two_servers).1 = Ok tt.
Proof.
  pose proof (command_logging_needs_a_guild in_private two_servers)
    as (_ & Hprivate & _).
  pose proof (command_logging_needs_a_guild in_guild two_servers)
    as (Hguild & _ & _).
  split; [reflexivity|].
  split; [exact (proj1 (Hprivate eq_refl))|].
  apply Hguild. discriminate.
Defined.

Lemma append_nil (r : string) : "" +:+ r = r.
Proof. reflexivity. Qed.

Lemma append_cons (c : ascii) (s r : string) : String c s +:+ r = String c (s +:+ r).
Proof. reflexivity. Qed.

Lemma tab_separates_aux s1 : forall s2 r1 r2,
  tab_free s1 = true ->
  tab_free s2 = true ->
  s1 +:+ String (ascii_of_nat 9) r1 = s2 +:+ String (ascii_of_nat 9) r2 ->
  s1 = s2 /\ r1 = r2.
Proof.
  induction s1 as [|c1 s1 IH]; intros [|c2 s2] r1 r2 Hf1 Hf2 Heq;
    rewrite ?append_nil, ?append_cons in Heq; cbn [tab_free] in Hf1, Hf2.
  - inversion Heq. split; reflexivity.
  - inversion Heq as [[Hc Hr]]. subst c2.
    rewrite Ascii.eqb_refl in Hf2. discriminate.
  - inversion Heq as [[Hc Hr]]. subst c1.
    rewrite Ascii.eqb_refl in Hf1. discriminate.
  - inversion Heq as [[Hc Hr]]. subst c2.
    apply andb_true_iff in Hf1 as [_ Hf1]. apply andb_true_iff in Hf2 as [_ Hf2].
    destruct (IH s2 r1 r2 Hf1 Hf2 Hr) as [-> ->]. split; reflexivity.
Qed.

Lemma tab_separates s1 s2 r1 r2 :
  tab_free s1 = true ->
  tab_free s2 = true ->
  s1 +:+ tab +:+ r1 = s2 +:+ tab +:+ r2 ->
  s1 = s2 /\ r1 = r2.
Proof.
  unfold tab. rewrite !append_cons, !append_nil. apply tab_separates_aux.
Qed.

(** X14: the log line is unambiguous as long as content, author and guild
    name hold no tab: two guild invocations that produce the same line then
    agree on all four fields (the channel name, last in the line, may hold
    anything). *)
Theorem log_line_determines_fields a b ga gb w :
  guild_name a = Some ga ->
  guild_name b = Some gb ->
  tab_free (message_content a) = true ->
  tab_free (author_name a) = true ->
  tab_free ga = true ->
  tab_free (message_content b) = true ->
  tab_free (author_name b) = true ->
  tab_free gb = true ->
  emitted (command_logging a) w = emitted (command_logging b) w ->
  a = b.
Proof.
  intros Hga Hgb Hca Haa Hta Hcb Hab Htb Hline.
  unfold emitted, command_logging, logging_info, emit, modify in Hline.
  rewrite Hga, Hgb in Hline. cbn in Hline. rewrite !drop_app_length in Hline.
  inversion Hline as [Hmsg].
  destruct (tab_separates _ _ _ _ Hca Hcb Hmsg) as [Hcontent Hrest1].
  destruct (tab_separates _ _ _ _ Haa Hab Hrest1) as [Hauthor Hrest2].
  destruct (tab_separates _ _ _ _ Hta Htb Hrest2) as [Hguild Hchannel].
  destruct a as [ca aa gna cha], b as [cb ab gnb chb]; cbn in *.
  subst. reflexivity.
Qed.

Lemma log_line_determines_fields_witness :
  guild_name in_guild = Some "inhouse"
  /\ tab_free (message_content in_guild) = true
  /\ tab_free (author_name in_guild) = true
  /\ tab_free "inhouse" = true
  /\ in_guild = in_guild.
Proof.
  do 4 (split; [reflexivity|]).
  exact (log_line_determines_fields in_guild in_guild "inhouse" "inhouse" two_servers
           eq_refl eq_refl eq_refl eq_refl eq_refl eq_refl eq_refl eq_refl eq_refl).
Defined.

(** ** Threads and timers over time *)

Lemma count_none (f : event -> bool) (tr : list event) :
  (forall ev, In ev tr -> f ev = false) -> count f tr = 0%nat.
Proof.
  intros Hnone. unfold count.
  induction tr as [|ev tr IH]; [reflexivity|].
  cbn [List.filter]. rewrite (Hnone ev (or_introl eq_refl)).
  apply IH. intros ev' Hin. apply Hnone. right. exact Hin.
Qed.

Lemma first_tick_on_event_loop K C now w ev :
  In ev (emitted (background_jobs K C EventLoop now) w) ->
  runs_on_timer_thread ev = false.
Proof.
  unfold emitted. tick_cases K C w now.
  all: rewrite <- ?app_assoc, drop_app_length.
  all: cbn; intros Hin.
  all: repeat match goal with
         | H : _ \/ _ |- _ => destruct H
         | H : False |- _ => destruct H
         end.
  all: subst ev; reflexivity.
Qed.

Lemma on_ready_on_event_loop K C name now w ev :
  In ev (emitted (on_ready K C name now) w) ->
  runs_on_timer_thread ev = false.
Proof.
  unfold emitted. on_ready_unfold.
  match goal with |- context [render_queue_channels C None ?w1] =>
    destruct (render_queue_channels C None w1) as [[]|e1] end; cbn.
  - match goal with |- context [render_ranking_channels C None ?w2] =>
      destruct (render_ranking_channels C None w2) as [[]|e2] end; cbn.
    + rewrite background_jobs_trace. cbn.
      rewrite <- !app_assoc, drop_app_length. cbn.
      intros [H|[H|[H|[H|H]]]]; try (subst ev; reflexivity).
      exact (first_tick_on_event_loop _ _ _ _ _ H).
    + rewrite <- !app_assoc, drop_app_length. cbn.
      intros [H|[H|[H|[H|H]]]]; try (subst ev; reflexivity). destruct H.
  - rewrite <- !app_assoc, drop_app_length. cbn.
    intros [H|[H|[H|H]]]; try (subst ev; reflexivity). destruct H.
Qed.

(** X15: nothing [on_ready] does runs on a timer's thread: no call and no
    task creation.  The first tick is a direct call inside the coroutine,
    so even at the reset time the reset of that tick is carried out on the
    event loop. *)
Theorem on_ready_stays_on_event_loop K C name now w :
  count runs_on_timer_thread (emitted (on_ready K C name now) w) = 0%nat
  /\ count mutates_on_timer_thread (emitted (on_ready K C name now) w) = 0%nat.
Proof.
  split; apply count_none; intros ev Hin;
    pose proof (on_ready_on_event_loop K C name now w ev Hin) as Hev.
  - exact Hev.
  - destruct ev as [| |[] c| | | |]; try reflexivity. discriminate Hev.
Qed.

Lemma run_ticks_timers K C ticks : forall w w',
  run_ticks K C ticks w = Some w' ->
  timers w'
  = drop (length ticks)
      (timers w ++ repeat (BACKGROUND_JOBS_INTERVAL K) (length ticks)).
Proof.
  induction ticks as [|now later IH]; intros w w' Hrun; cbn [run_ticks] in Hrun.
  - inversion Hrun. cbn. rewrite app_nil_r. reflexivity.
  - unfold timer_fires in Hrun.
    destruct (timers w) as [|t pending] eqn:Ht; [discriminate|].
    destruct (background_jobs K C TimerThread now (set_timers pending w))
      as [r w1] eqn:Hstep.
    pose proof (background_jobs_timers K C TimerThread now (set_timers pending w))
      as Htm.
    rewrite Hstep in Htm. cbn in Htm.
    rewrite (IH _ _ Hrun), Htm. cbn [length repeat].
    rewrite <- app_assoc. reflexivity.
Qed.

(** X16: ticking neither loses nor gains a timer chain.  Each tick uses up
    the oldest pending timer and starts one with the configured interval,
    so after any run as many timers are pending as before; two chains, once
    started, stay two. *)
Theorem ticking_keeps_the_number_of_timers K C ticks w w' :
  run_ticks K C ticks w = Some w' ->
  timers w'
  = drop (length ticks)
      (timers w ++ repeat (BACKGROUND_JOBS_INTERVAL K) (length ticks))
  /\ length (timers w') = length (timers w).
Proof.
  intros Hrun. pose proof (run_ticks_timers K C ticks w w' Hrun) as Htimers.
  split; [exact Htimers|].
  rewrite Htimers, length_drop, length_app, repeat_length. lia.
Qed.

Lemma ticking_keeps_the_number_of_timers_witness :
  exists w',
    run_ticks K_fast C_all_on [noon_05; noon_35; noon_01_05]
      (set_timers [30; 60] two_servers) = Some w'
    /\ length (timers w') = 2%nat.
Proof.
  destruct (run_ticks K_fast C_all_on [noon_05; noon_35; noon_01_05]
              (set_timers [30; 60] two_servers))
    as [w'|] eqn:E; [| vm_compute in E; discriminate].
  exists w'. split; [reflexivity|].
  exact (proj2 (ticking_keeps_the_number_of_timers
                  K_fast C_all_on [noon_05; noon_35; noon_01_05]
                  (set_timers [30; 60] two_servers) w' E)).
Defined.
